(** * Casa Limpia: the weekly cleaning planner of [Piso/backend/server.py]

    A shallow embedding of the schedule generator ([generate_all_schedules]
    and its date helpers) and of the request handlers over the stored
    schedules ([get_current_week], [complete_task], [create_schedules],
    [get_all_schedules], [delete_all_schedules]), followed by the
    properties of the generated rota and of the handlers.

    Conventions of the embedding.
    - A [datetime.date] is its proleptic Gregorian ordinal
      ([date.toordinal()], 1 = 0001-01-01), a [Z]; the calendar fields are
      recovered with [Date.ord2ymd], which follows [datetime._ord2ymd].
      [date + timedelta] raises [OverflowError] outside 1..[MAXORDINAL].
    - The system clock is an argument: [today] for
      [datetime.now(timezone.utc).date()], [now] for
      [datetime.now(timezone.utc).isoformat()].
    - [uuid.uuid4()] is a supply [uuid4 : nat -> string]; the number of
      identifiers already drawn is threaded through the generator.
    - The collection [db.week_schedules] is the list of its documents in
      natural (insertion) order; the driver itself is taken to be reliable. *)

From Stdlib Require Import ZArith List String Ascii Bool Lia DecimalString.
From Stdlib Require Import Sorted Permutation.
From Equations Require Import Equations.
From Equations.Prop Require Import Logic.
Import ListNotations.
Open Scope string_scope.
Open Scope list_scope.
Open Scope Z_scope.

(** ** Exceptions *)

Inductive exn : Type :=
| OverflowError
| HTTPException (status_code : Z) (detail : string).

Inductive result (A : Type) : Type :=
| Ok (a : A)
| Raise (e : exn).

Arguments Ok {A} a.
Arguments Raise {A} e.

Definition str_exn (e : exn) : string :=
  match e with
  | OverflowError => "date value out of range"
  | HTTPException _ detail => detail
  end.

(** ** Enumerations (server.py, lines 29-43) *)

Inductive PersonType : Type := JOAN | MERY | PACO | BELEN.

Inductive AreaType : Type :=
| COCINA | SALON_PASILLO | BANO_JOAN_MERY | BANO_PACO_BELEN.

Inductive TaskType : Type := LIMPIEZA_PRINCIPAL | LIMPIEZA_BANO.

Definition PersonType_value (p : PersonType) : string :=
  match p with
  | JOAN => "joan" | MERY => "mery" | PACO => "paco" | BELEN => "belen"
  end.

Definition AreaType_value (a : AreaType) : string :=
  match a with
  | COCINA => "cocina"
  | SALON_PASILLO => "salon_pasillo"
  | BANO_JOAN_MERY => "bano_joan_mery"
  | BANO_PACO_BELEN => "bano_paco_belen"
  end.

Definition TaskType_value (t : TaskType) : string :=
  match t with
  | LIMPIEZA_PRINCIPAL => "limpieza_principal"
  | LIMPIEZA_BANO => "limpieza_bano"
  end.

(** Lookup of an enumeration member by value, as [PersonType("joan")]. *)
Definition by_value {A : Type} (value : A -> string) (members : list A)
  (s : string) : option A :=
  find (fun m => String.eqb (value m) s) members.

Definition PersonType_of (s : string) : option PersonType :=
  by_value PersonType_value [JOAN; MERY; PACO; BELEN] s.

Definition AreaType_of (s : string) : option AreaType :=
  by_value AreaType_value
    [COCINA; SALON_PASILLO; BANO_JOAN_MERY; BANO_PACO_BELEN] s.

Definition TaskType_of (s : string) : option TaskType :=
  by_value TaskType_value [LIMPIEZA_PRINCIPAL; LIMPIEZA_BANO] s.

(** ** Dates: the part of Python's [datetime] that the server uses *)

Module Date.

Definition MAXORDINAL : Z := 3652059.

Definition DAYS_IN_MONTH : list Z :=
  [-1; 31; 28; 31; 30; 31; 30; 31; 31; 30; 31; 30; 31].

Definition DAYS_BEFORE_MONTH : list Z :=
  [-1; 0; 31; 59; 90; 120; 151; 181; 212; 243; 273; 304; 334].

(** [l[i]]; the tables are only read at the months 1..12. *)
Definition index (l : list Z) (i : Z) : Z := nth (Z.to_nat i) l 0.

Definition is_leap (year : Z) : bool :=
  (year mod 4 =? 0) && (negb (year mod 100 =? 0) || (year mod 400 =? 0)).

Definition days_before_year (year : Z) : Z :=
  let y := year - 1 in
  y * 365 + y / 4 - y / 100 + y / 400.

Definition days_in_month (year month : Z) : Z :=
  if (month =? 2) && is_leap year then 29 else index DAYS_IN_MONTH month.

Definition days_before_month (year month : Z) : Z :=
  index DAYS_BEFORE_MONTH month + Z.b2z ((2 <? month) && is_leap year).

Definition ymd2ord (year month day : Z) : Z :=
  days_before_year year + days_before_month year month + day.

Definition DI400Y : Z := Eval cbv in days_before_year 401.
Definition DI100Y : Z := Eval cbv in days_before_year 101.
Definition DI4Y : Z := Eval cbv in days_before_year 5.

Definition ord2ymd (n : Z) : Z * Z * Z :=
  let n := n - 1 in
  let n400 := n / DI400Y in
  let n := n mod DI400Y in
  let year := n400 * 400 + 1 in
  let n100 := n / DI100Y in
  let n := n mod DI100Y in
  let n4 := n / DI4Y in
  let n := n mod DI4Y in
  let n1 := n / 365 in
  let n := n mod 365 in
  let year := year + (n100 * 100 + n4 * 4 + n1) in
  if (n1 =? 4) || (n100 =? 4) then (year - 1, 12, 31)
  else
    let leapyear := (n1 =? 3) && (negb (n4 =? 24) || (n100 =? 3)) in
    let month := Z.shiftr (n + 50) 5 in
    let preceding :=
      index DAYS_BEFORE_MONTH month + Z.b2z ((2 <? month) && leapyear) in
    if n <? preceding then
      let month := month - 1 in
      let preceding :=
        preceding
        - (index DAYS_IN_MONTH month + Z.b2z ((month =? 2) && leapyear)) in
      (year, month, n - preceding + 1)
    else (year, month, n - preceding + 1).

Definition year (d : Z) : Z := fst (fst (ord2ymd d)).
Definition month (d : Z) : Z := snd (fst (ord2ymd d)).
Definition day (d : Z) : Z := snd (ord2ymd d).

(** [date + timedelta(days=days)] and [date - timedelta(days=days)]. *)
Definition add (d days : Z) : result Z :=
  let o := d + days in
  if (0 <? o) && (o <=? MAXORDINAL) then Ok o else Raise OverflowError.

Definition sub (d days : Z) : result Z := add d (- days).

Definition weekday (d : Z) : Z := (d + 6) mod 7.

Definition isoweek1monday (year : Z) : Z :=
  let THURSDAY := 3 in
  let firstday := ymd2ord year 1 1 in
  let firstweekday := (firstday + 6) mod 7 in
  let week1monday := firstday - firstweekday in
  if THURSDAY <? firstweekday then week1monday + 7 else week1monday.

(** [date.isocalendar()]: ISO year, ISO week number, ISO weekday. *)
Definition isocalendar (d : Z) : Z * Z * Z :=
  let year := year d in
  let week1monday := isoweek1monday year in
  let today := ymd2ord year (month d) (day d) in
  let week := (today - week1monday) / 7 in
  let day := (today - week1monday) mod 7 in
  if week <? 0 then
    let year := year - 1 in
    let week1monday := isoweek1monday year in
    let week := (today - week1monday) / 7 in
    let day := (today - week1monday) mod 7 in
    (year, week + 1, day + 1)
  else if (52 <=? week) && (isoweek1monday (year + 1) <=? today) then
    (year + 1, 0 + 1, day + 1)
  else (year, week + 1, day + 1).

Definition zeros (n : nat) : string := concat "" (repeat "0" n).

(** ["%0<width>d" % n]. *)
Definition format_0d (width : nat) (n : Z) : string :=
  let digits := NilZero.string_of_uint (N.to_uint (Z.abs_N n)) in
  if n <? 0 then
    ("-" ++ zeros (width - 1 - String.length digits) ++ digits)%string
  else (zeros (width - String.length digits) ++ digits)%string.

Definition isoformat (d : Z) : string :=
  (format_0d 4 (year d) ++ "-" ++ format_0d 2 (month d) ++ "-"
   ++ format_0d 2 (day d))%string.

End Date.

(** ** Models (server.py, lines 46-76) *)

Module PersonTask.
Record t : Type := mk {
  id : string;
  week_start : string;
  person : PersonType;
  area : AreaType;
  task_type : TaskType;
  limpieza_completada : bool;
  completed_at : option string
}.
End PersonTask.

Module WeekSchedule.
Record t : Type := mk {
  id : string;
  week_start : string;
  week_end : string;
  week_number : Z;
  year : Z;
  joan_area : AreaType;
  mery_area : AreaType;
  paco_area : AreaType;
  belen_area : AreaType;
  joan_bano : bool;
  mery_bano : bool;
  paco_bano : bool;
  belen_bano : bool;
  tasks : list PersonTask.t
}.
End WeekSchedule.

Module TaskCompletionUpdate.
Record t : Type := mk {
  week_start : string;
  person : PersonType;
  area : AreaType;
  task_type : TaskType;
  completed : bool
}.
End TaskCompletionUpdate.

(** ** Sequencing of fallible steps *)

Definition rbind {A B : Type} (r : result A) (k : A -> result B) : result B :=
  match r with
  | Ok a => k a
  | Raise e => Raise e
  end.

Notation "'let*' x ':=' r 'in' k" := (rbind r (fun x => k))
  (at level 10, x name, r at level 100, k at level 200, only parsing).

(** A computation that may draw identifiers: it is given the number of
    identifiers drawn so far and returns the new count with its value. *)
Definition Gen (A : Type) : Type := nat -> result (A * nat).

Definition ret {A : Type} (a : A) : Gen A := fun n => Ok (a, n).

Definition bind {A B : Type} (c : Gen A) (k : A -> Gen B) : Gen B :=
  fun n =>
    match c n with
    | Ok (a, n') => k a n'
    | Raise e => Raise e
    end.

Definition lift {A : Type} (r : result A) : Gen A :=
  fun n => rbind r (fun a => Ok (a, n)).

Notation "x <- c ;; k" := (bind c (fun x => k))
  (at level 61, c at next level, right associativity, only parsing).

(** ** Helper functions (server.py, lines 79-97) *)

Definition get_monday_of_week (date : Z) : result Z :=
  let days_since_monday := Date.weekday date in
  Date.sub date days_since_monday.

Definition get_sunday_of_week (date : Z) : result Z :=
  let* monday := get_monday_of_week date in
  Date.add monday 6.

Definition get_next_monday (today : Z) : result Z :=
  let days_until_monday := (7 - Date.weekday today) mod 7 in
  let days_until_monday :=
    if days_until_monday =? 0 then 7 else days_until_monday in
  Date.add today days_until_monday.

(** ** The generator (server.py, lines 99-198) *)

Definition end_date : Z := Date.ymd2ord 2026 7 1.

Section Generator.

Variable uuid4 : nat -> string.

(** [PersonTask(week_start=..., person=..., area=..., task_type=...)]: the
    identifier is drawn, the completion fields take their defaults. *)
Definition new_PersonTask (week_start : string) (person : PersonType)
  (area : AreaType) (task_type : TaskType) : Gen PersonTask.t :=
  fun n =>
    Ok (PersonTask.mk (uuid4 n) week_start person area task_type false None,
        S n).

Definition new_WeekSchedule (week_start week_end : string)
  (week_number year : Z) (joan_area mery_area paco_area belen_area : AreaType)
  (joan_bano mery_bano paco_bano belen_bano : bool)
  (tasks : list PersonTask.t) : Gen WeekSchedule.t :=
  fun n =>
    Ok (WeekSchedule.mk (uuid4 n) week_start week_end week_number year
          joan_area mery_area paco_area belen_area
          joan_bano mery_bano paco_bano belen_bano tasks,
        S n).

(** The [for person, area in [...]] loop of lines 132-143. *)
Fixpoint append_main_tasks (week_start : string)
  (pairs : list (PersonType * AreaType)) (tasks : list PersonTask.t)
  : Gen (list PersonTask.t) :=
  match pairs with
  | [] => ret tasks
  | (person, area) :: pairs' =>
      t <- new_PersonTask week_start person area LIMPIEZA_PRINCIPAL ;;
      append_main_tasks week_start pairs' (tasks ++ [t])
  end.

(** One [if <flag>: tasks.append(PersonTask(...))] of lines 146-176. *)
Definition append_bano_task (flag : bool) (week_start : string)
  (person : PersonType) (area : AreaType) (tasks : list PersonTask.t)
  : Gen (list PersonTask.t) :=
  if flag then
    t <- new_PersonTask week_start person area LIMPIEZA_BANO ;;
    ret (tasks ++ [t])
  else ret tasks.

(** The body of the [while] loop up to the construction of the schedule
    (lines 109-192), for the Monday [current_date]. *)
Definition week_body (current_date week_counter : Z) : Gen WeekSchedule.t :=
  let monday := current_date in
  sunday <- lift (get_sunday_of_week monday) ;;
  let '(joan_area, mery_area, paco_area, belen_area) :=
    if week_counter mod 2 =? 0
    then (COCINA, COCINA, SALON_PASILLO, SALON_PASILLO)
    else (SALON_PASILLO, SALON_PASILLO, COCINA, COCINA) in
  let joan_bano := week_counter mod 2 =? 0 in
  let mery_bano := week_counter mod 2 =? 1 in
  let paco_bano := week_counter mod 2 =? 0 in
  let belen_bano := week_counter mod 2 =? 1 in
  let tasks := [] in
  tasks <- append_main_tasks (Date.isoformat monday)
             [(JOAN, joan_area); (MERY, mery_area);
              (PACO, paco_area); (BELEN, belen_area)] tasks ;;
  tasks <- append_bano_task joan_bano (Date.isoformat monday)
             JOAN BANO_JOAN_MERY tasks ;;
  tasks <- append_bano_task mery_bano (Date.isoformat monday)
             MERY BANO_JOAN_MERY tasks ;;
  tasks <- append_bano_task paco_bano (Date.isoformat monday)
             PACO BANO_PACO_BELEN tasks ;;
  tasks <- append_bano_task belen_bano (Date.isoformat monday)
             BELEN BANO_PACO_BELEN tasks ;;
  new_WeekSchedule (Date.isoformat monday) (Date.isoformat sunday)
    (snd (fst (Date.isocalendar monday))) (Date.year monday)
    joan_area mery_area paco_area belen_area
    joan_bano mery_bano paco_bano belen_bano tasks.

#[local] Opaque week_body end_date.

(** The [while current_date <= end_date] loop.  It terminates because every
    pass that does not raise moves [current_date] seven days closer to
    [end_date]. *)
Equations? weeks_loop (current_date week_counter : Z)
  (schedules : list WeekSchedule.t) (n : nat)
  : result (list WeekSchedule.t * nat)
  by wf (Z.to_nat (end_date + 1 - current_date)) lt :=
weeks_loop current_date week_counter schedules n
  with inspect (current_date <=? end_date) := {
  | exist _ false _ => Ok (schedules, n)
  | exist _ true Hle with week_body current_date week_counter n := {
    | Raise e => Raise e
    | Ok (schedule, n') with inspect (Date.add current_date 7) := {
      | exist _ (Raise e) _ => Raise e
      | exist _ (Ok next) Hnext =>
          weeks_loop next (week_counter + 1) (schedules ++ [schedule]) n' } } }.
Proof.
  apply Z.leb_le in Hle. unfold Date.add in Hnext.
  destruct ((0 <? current_date + 7) && (current_date + 7 <=? Date.MAXORDINAL));
    [|discriminate].
  injection Hnext as <-. lia.
Qed.

#[local] Transparent week_body end_date.

Definition generate_all_schedules (today : Z) : Gen (list WeekSchedule.t) :=
  let schedules := [] in
  start_date <- lift (get_next_monday today) ;;
  let current_date := start_date in
  let week_counter := 0 in
  weeks_loop current_date week_counter schedules.

End Generator.

(** The schedules a run of the generator returned; none if it raised. *)
Definition schedules_of (r : result (list WeekSchedule.t * nat))
  : list WeekSchedule.t :=
  match r with
  | Ok (schedules, _) => schedules
  | Raise _ => []
  end.

(** ** The schedule store (server.py, lines 226-281) *)

Definition collection : Type := list WeekSchedule.t.

(** [find_one({"week_start": week_start})]: the first such document. *)
Definition find_one_week_start (week_start : string) (db : collection)
  : option WeekSchedule.t :=
  find (fun d => String.eqb (WeekSchedule.week_start d) week_start) db.

(** [find_one({}, sort=[("week_start", 1)])]: a document whose [week_start]
    is least in the binary order of strings (the first such one). *)
Fixpoint find_one_sort_week_start (db : collection) : option WeekSchedule.t :=
  match db with
  | [] => None
  | d :: db' =>
      match find_one_sort_week_start db' with
      | None => Some d
      | Some m =>
          if String.leb (WeekSchedule.week_start d) (WeekSchedule.week_start m)
          then Some d else Some m
      end
  end.

(** [try: ... except HTTPException: raise
    except Exception as e: raise HTTPException(500, prefix + str(e))]. *)
Definition except_500 {A : Type} (prefix : string) (r : result A) : result A :=
  match r with
  | Ok a => Ok a
  | Raise (HTTPException status_code detail) =>
      Raise (HTTPException status_code detail)
  | Raise e => Raise (HTTPException 500 (prefix ++ str_exn e)%string)
  end.

Definition get_current_week (today : Z) (db : collection)
  : result WeekSchedule.t :=
  except_500 "Error obteniendo semana actual: "
    (let* monday := get_monday_of_week today in
     match find_one_week_start (Date.isoformat monday) db with
     | Some schedule => Ok schedule
     | None =>
         match find_one_sort_week_start db with
         | Some schedule => Ok schedule
         | None =>
             Raise (HTTPException 404 "No hay planificaciones disponibles")
         end
     end).

(** The [$elemMatch] condition of the filter (lines 255-259). *)
Definition elemMatch (task_update : TaskCompletionUpdate.t)
  (t : PersonTask.t) : bool :=
  String.eqb (PersonType_value (PersonTask.person t))
             (PersonType_value (TaskCompletionUpdate.person task_update))
  && String.eqb (AreaType_value (PersonTask.area t))
                (AreaType_value (TaskCompletionUpdate.area task_update))
  && String.eqb (TaskType_value (PersonTask.task_type t))
                (TaskType_value (TaskCompletionUpdate.task_type task_update)).

Definition filter_query (task_update : TaskCompletionUpdate.t)
  (d : WeekSchedule.t) : bool :=
  String.eqb (WeekSchedule.week_start d)
             (TaskCompletionUpdate.week_start task_update)
  && existsb (elemMatch task_update) (WeekSchedule.tasks d).

(** [$set] of ["tasks.$.limpieza_completada"] and ["tasks.$.completed_at"]:
    [$] is the first element of [tasks] that satisfies the [$elemMatch]. *)
Fixpoint set_positional (task_update : TaskCompletionUpdate.t)
  (completed_at : option string) (tasks : list PersonTask.t)
  : list PersonTask.t :=
  match tasks with
  | [] => []
  | t :: tasks' =>
      if elemMatch task_update t then
        PersonTask.mk (PersonTask.id t) (PersonTask.week_start t)
          (PersonTask.person t) (PersonTask.area t) (PersonTask.task_type t)
          (TaskCompletionUpdate.completed task_update) completed_at
        :: tasks'
      else t :: set_positional task_update completed_at tasks'
  end.

Definition update_query (task_update : TaskCompletionUpdate.t)
  (completed_at : option string) (d : WeekSchedule.t) : WeekSchedule.t :=
  WeekSchedule.mk (WeekSchedule.id d) (WeekSchedule.week_start d)
    (WeekSchedule.week_end d) (WeekSchedule.week_number d)
    (WeekSchedule.year d)
    (WeekSchedule.joan_area d) (WeekSchedule.mery_area d)
    (WeekSchedule.paco_area d) (WeekSchedule.belen_area d)
    (WeekSchedule.joan_bano d) (WeekSchedule.mery_bano d)
    (WeekSchedule.paco_bano d) (WeekSchedule.belen_bano d)
    (set_positional task_update completed_at (WeekSchedule.tasks d)).

(** [update_one(filter_query, update_query)]: the first document that passes
    the filter is updated; the result is the new collection and
    [matched_count]. *)
Fixpoint update_one (task_update : TaskCompletionUpdate.t)
  (completed_at : option string) (db : collection) : collection * Z :=
  match db with
  | [] => ([], 0)
  | d :: db' =>
      if filter_query task_update d then
        (update_query task_update completed_at d :: db', 1)
      else
        let '(db'', matched_count) :=
          update_one task_update completed_at db' in
        (d :: db'', matched_count)
  end.

Definition complete_task (task_update : TaskCompletionUpdate.t) (now : string)
  (db : collection) : result (string * bool) * collection :=
  let completed_at :=
    if TaskCompletionUpdate.completed task_update then Some now else None in
  let '(db', matched_count) := update_one task_update completed_at db in
  (except_500 "Error actualizando tarea: "
     (if matched_count =? 0
      then Raise (HTTPException 404 "Tarea no encontrada")
      else Ok ("Tarea actualizada correctamente",
               TaskCompletionUpdate.completed task_update)),
   db').

(** The JSON body of [POST /complete-task] before validation. *)
Module RequestBody.
Record t : Type := mk {
  week_start : string;
  person : string;
  area : string;
  task_type : string;
  completed : bool
}.
End RequestBody.

(** Validation of the body against [TaskCompletionUpdate] (lines 71-76):
    the three enumerated fields are looked up by value, [week_start] is
    declared [str] and taken as it is. *)
Definition validate (body : RequestBody.t) : option TaskCompletionUpdate.t :=
  match PersonType_of (RequestBody.person body),
        AreaType_of (RequestBody.area body),
        TaskType_of (RequestBody.task_type body) with
  | Some person, Some area, Some task_type =>
      Some (TaskCompletionUpdate.mk (RequestBody.week_start body)
              person area task_type (RequestBody.completed body))
  | _, _, _ => None
  end.

(** The route [POST /api/complete-task]: a body that fails validation is
    answered 422 and the handler is not run. *)
Definition post_complete_task (body : RequestBody.t) (now : string)
  (db : collection) : result (string * bool) * collection :=
  match validate body with
  | None => (Raise (HTTPException 422 "Unprocessable Entity"), db)
  | Some task_update => complete_task task_update now db
  end.

Definition status_code {A : Type} (r : result A) : Z :=
  match r with
  | Ok _ => 200
  | Raise (HTTPException status_code _) => status_code
  | Raise _ => 500
  end.

(** ** The other routes (server.py, lines 204-224 and 283-299) *)

(** [try: ... except Exception as e: raise HTTPException(500, prefix +
    str(e))], the form these routes use: nothing is raised again as it
    is. *)
Definition except_Exception_500 {A : Type} (prefix : string) (r : result A)
  : result A :=
  match r with
  | Ok a => Ok a
  | Raise e => Raise (HTTPException 500 (prefix ++ str_exn e)%string)
  end.

(** [str(n)] of an integer, as an f-string writes it. *)
Definition str_int (n : Z) : string := NilZero.string_of_int (Z.to_int n).

(** What a call of the driver gives: a value, or the message of the
    exception it raises. *)
Inductive driver (A : Type) : Type :=
| Done (a : A)
| Failed (message : string).

Arguments Done {A} a.
Arguments Failed {A} message.

(** [delete_many({})]: the emptied collection and [deleted_count]. *)
Definition delete_many (db : collection) : collection * Z :=
  ([], Z.of_nat (List.length db)).

(** [insert_many(documents)]: the documents are appended in their order and
    [len(inserted_ids)] is their number; the driver (pymongo) refuses an
    empty list with [TypeError("documents must be a non-empty list")]. *)
Definition insert_many (documents : list WeekSchedule.t) (db : collection)
  : driver (collection * Z) :=
  match documents with
  | [] => Failed "documents must be a non-empty list"
  | _ :: _ => Done (db ++ documents, Z.of_nat (List.length documents))
  end.

(** [find().sort("week_start", 1)]: the documents in ascending binary order
    of [week_start], documents of equal [week_start] in their natural
    order. *)
Fixpoint insert_week_start (d : WeekSchedule.t) (l : list WeekSchedule.t)
  : list WeekSchedule.t :=
  match l with
  | [] => [d]
  | x :: l' =>
      if String.leb (WeekSchedule.week_start d) (WeekSchedule.week_start x)
      then d :: l else x :: insert_week_start d l'
  end.

Definition sort_week_start (db : collection) : list WeekSchedule.t :=
  fold_right insert_week_start [] db.

(** The body that [create_schedules] answers with. *)
Module Created.
Record t : Type := mk {
  message : string;
  created : Z;
  from : option string;
  to : option string
}.
End Created.

(** [schedules[0].week_start if schedules else None] and the same for
    [schedules[-1]]. *)
Definition first_week_start (schedules : list WeekSchedule.t)
  : option string :=
  option_map WeekSchedule.week_start (hd_error schedules).

Definition last_week_start (schedules : list WeekSchedule.t)
  : option string :=
  option_map WeekSchedule.week_start
    (nth_error schedules (List.length schedules - 1)).

(** [POST /generate-schedules]: the collection is emptied, then the
    generator runs, then its schedules are inserted; whatever is raised on
    the way is answered 500, with the collection as it is at that point.
    The result carries the new collection and the new count of identifiers
    drawn. *)
Definition create_schedules (uuid4 : nat -> string) (today : Z) (n : nat)
  (db : collection) : result Created.t * collection * nat :=
  let '(db, _) := delete_many db in
  match generate_all_schedules uuid4 today n with
  | Raise e =>
      (Raise (HTTPException 500
                ("Error creando planificaciones: " ++ str_exn e)%string),
       db, n)
  | Ok (schedules, n') =>
      match insert_many schedules db with
      | Failed message =>
          (Raise (HTTPException 500
                    ("Error creando planificaciones: " ++ message)%string),
           db, n')
      | Done (db', inserted) =>
          (Ok (Created.mk
                 ("Se crearon " ++ str_int inserted
                  ++ " planificaciones semanales con baños incluidos")%string
                 inserted
                 (first_week_start schedules) (last_week_start schedules)),
           db', n')
      end
  end.

(** [GET /schedules]. *)
Definition get_all_schedules (db : collection)
  : result (list WeekSchedule.t) :=
  except_Exception_500 "Error obteniendo planificaciones: "
    (Ok (sort_week_start db)).

(** [DELETE /schedules]. *)
Definition delete_all_schedules (db : collection)
  : result string * collection :=
  let '(db', deleted_count) := delete_many db in
  (except_Exception_500 "Error eliminando planificaciones: "
     (Ok ("Se eliminaron " ++ str_int deleted_count
          ++ " planificaciones")%string),
   db').

(** ** Vocabulary of the properties *)

Definition persons : list PersonType := [JOAN; MERY; PACO; BELEN].

(** The main area and the bathroom flag a schedule records for a person. *)
Definition main_area_of (s : WeekSchedule.t) (p : PersonType) : AreaType :=
  match p with
  | JOAN => WeekSchedule.joan_area s
  | MERY => WeekSchedule.mery_area s
  | PACO => WeekSchedule.paco_area s
  | BELEN => WeekSchedule.belen_area s
  end.

Definition bano_of (s : WeekSchedule.t) (p : PersonType) : bool :=
  match p with
  | JOAN => WeekSchedule.joan_bano s
  | MERY => WeekSchedule.mery_bano s
  | PACO => WeekSchedule.paco_bano s
  | BELEN => WeekSchedule.belen_bano s
  end.

(** The bathroom of the pair a person belongs to. *)
Definition bathroom_of (p : PersonType) : AreaType :=
  match p with
  | JOAN | MERY => BANO_JOAN_MERY
  | PACO | BELEN => BANO_PACO_BELEN
  end.

(** A task without its identifier. *)
Definition without_id (t : PersonTask.t)
  : string * PersonType * AreaType * TaskType * bool * option string :=
  (PersonTask.week_start t, PersonTask.person t, PersonTask.area t,
   PersonTask.task_type t, PersonTask.limpieza_completada t,
   PersonTask.completed_at t).

(** The key that [complete_task] looks a task up by inside a schedule. *)
Definition task_key (t : PersonTask.t) : PersonType * AreaType * TaskType :=
  (PersonTask.person t, PersonTask.area t, PersonTask.task_type t).

Definition valid_date (d : Z) : Prop := 1 <= d <= Date.MAXORDINAL.

(** [P] holds of the [fuel] integers from [r] on: a bounded check. *)
Fixpoint all_from (P : Z -> bool) (fuel : nat) (r : Z) : bool :=
  match fuel with
  | O => true
  | S fuel' => P r && all_from P fuel' (r + 1)
  end.

(** The month and day that [ord2ymd] computes from the offset [n] of a day
    in its year. *)
Definition month_day (leapyear : bool) (n : Z) : Z * Z :=
  let month := Z.shiftr (n + 50) 5 in
  let preceding :=
    Date.index Date.DAYS_BEFORE_MONTH month
    + Z.b2z ((2 <? month) && leapyear) in
  if n <? preceding then
    let month := month - 1 in
    let preceding :=
      preceding
      - (Date.index Date.DAYS_IN_MONTH month
         + Z.b2z ((month =? 2) && leapyear)) in
    (month, n - preceding + 1)
  else (month, n - preceding + 1).

(** The month and day found for the offset [n] give that offset back. *)
Definition month_day_ok (leapyear : bool) (n : Z) : bool :=
  let '(m, d) := month_day leapyear n in
  (1 <=? m) && (m <=? 12) && (1 <=? d) && (d <=? 31)
  && (Date.index Date.DAYS_BEFORE_MONTH m + Z.b2z ((2 <? m) && leapyear) + d
      =? n + 1).

(** The number a string of decimal digits denotes. *)
Definition digits_value (s : string) : Z :=
  fold_left (fun acc c => 10 * acc + (Z.of_N (N_of_ascii c) - 48))
    (list_ascii_of_string s) 0.

(** [format_0d width] writes [n] in exactly [width] digits. *)
Definition format_ok (width : nat) (n : Z) : bool :=
  (digits_value (Date.format_0d width n) =? n)
  && Nat.eqb (String.length (Date.format_0d width n)) width.

(** A task as [PersonTask(...)] leaves it, with the [n]-th identifier. *)
Definition born (uuid4 : nat -> string) (n : nat) (week_start : string)
  (person : PersonType) (area : AreaType) (task_type : TaskType)
  : PersonTask.t :=
  PersonTask.mk (uuid4 n) week_start person area task_type false None.

(** The record one pass of the loop is shown to build ([week_body_run]) for
    the Monday [monday], its Sunday [sunday], the counter [week_counter] and
    [n] identifiers drawn before. *)
Definition week_record (uuid4 : nat -> string) (monday sunday week_counter : Z)
  (n : nat) : WeekSchedule.t :=
  let even := week_counter mod 2 =? 0 in
  let main1 := if even then COCINA else SALON_PASILLO in
  let main2 := if even then SALON_PASILLO else COCINA in
  let ws := Date.isoformat monday in
  WeekSchedule.mk (uuid4 (n + 6)%nat) ws (Date.isoformat sunday)
    (snd (fst (Date.isocalendar monday))) (Date.year monday)
    main1 main1 main2 main2 even (negb even) even (negb even)
    ([born uuid4 n ws JOAN main1 LIMPIEZA_PRINCIPAL;
      born uuid4 (n + 1) ws MERY main1 LIMPIEZA_PRINCIPAL;
      born uuid4 (n + 2) ws PACO main2 LIMPIEZA_PRINCIPAL;
      born uuid4 (n + 3) ws BELEN main2 LIMPIEZA_PRINCIPAL]
     ++ (if even
         then [born uuid4 (n + 4) ws JOAN BANO_JOAN_MERY LIMPIEZA_BANO;
               born uuid4 (n + 5) ws PACO BANO_PACO_BELEN LIMPIEZA_BANO]
         else [born uuid4 (n + 4) ws MERY BANO_JOAN_MERY LIMPIEZA_BANO;
               born uuid4 (n + 5) ws BELEN BANO_PACO_BELEN LIMPIEZA_BANO])).

(** The task a request designates, and the requests that designate one. *)
Definition task_matches (u : TaskCompletionUpdate.t) (t : PersonTask.t)
  : Prop :=
  task_key t = (TaskCompletionUpdate.person u, TaskCompletionUpdate.area u,
                TaskCompletionUpdate.task_type u).

Definition schedule_matches (u : TaskCompletionUpdate.t) (d : WeekSchedule.t)
  : Prop :=
  WeekSchedule.week_start d = TaskCompletionUpdate.week_start u
  /\ exists t, In t (WeekSchedule.tasks d) /\ task_matches u t.

Definition has_match (u : TaskCompletionUpdate.t) (db : collection) : Prop :=
  exists d, In d db /\ schedule_matches u d.

(** [l'] is [l] except perhaps for the element of index [i]. *)
Definition same_except {A : Type} (i : nat) (l l' : list A) : Prop :=
  List.length l' = List.length l
  /\ forall k, k <> i -> nth_error l' k = nth_error l k.




Definition digit_of (c : ascii) : option Z :=
  let k := Z.of_N (N_of_ascii c) in
  if (48 <=? k) && (k <=? 57) then Some (k - 48) else None.

(** The strings [YYYY-MM-DD] that name a day of the calendar: what a
    request field holding a valid date looks like. *)
Definition valid_date_string (s : string) : bool :=
  match list_ascii_of_string s with
  | [y1; y2; y3; y4; h1; m1; m2; h2; d1; d2] =>
      match digit_of y1, digit_of y2, digit_of y3, digit_of y4,
            digit_of m1, digit_of m2, digit_of d1, digit_of d2 with
      | Some a, Some b, Some c, Some d, Some e, Some f, Some g, Some h =>
          let year := 1000 * a + 100 * b + 10 * c + d in
          let month := 10 * e + f in
          let day := 10 * g + h in
          Ascii.eqb h1 "-" && Ascii.eqb h2 "-"
          && (1 <=? year) && (1 <=? month) && (month <=? 12)
          && (1 <=? day) && (day <=? Date.days_in_month year month)
      | _, _, _, _, _, _, _, _ => false
      end
  | _ => false
  end.

(** C6 as the specification words it: also the [year] field is taken to be
    the ISO year of the Monday. *)
Definition iso_year_claim : Prop :=
  forall (uuid4 : nat -> string) (today start : Z) (n n' : nat)
         (l : list WeekSchedule.t) (i : nat) (s : WeekSchedule.t),
    generate_all_schedules uuid4 today n = Ok (l, n') ->
    get_next_monday today = Ok start ->
    nth_error l i = Some s ->
    let monday := start + 7 * Z.of_nat i in
    WeekSchedule.week_end s = Date.isoformat (monday + 6)
    /\ WeekSchedule.week_number s = snd (fst (Date.isocalendar monday))
    /\ WeekSchedule.year s = fst (fst (Date.isocalendar monday)).


(** An identifier supply to run the generator with. *)
Definition uuid_sample (n : nat) : string :=
  ("id-" ++ NilZero.string_of_uint (Nat.to_uint n))%string.

(** A collection to run the handlers on: the two weeks generated on
    Tuesday 2026-06-16, those of 2026-06-22 and 2026-06-29. *)
Definition sample_db : collection :=
  schedules_of (generate_all_schedules uuid_sample 739783 0%nat).

Definition sample_update : TaskCompletionUpdate.t :=
  TaskCompletionUpdate.mk "2026-06-29" JOAN SALON_PASILLO
    LIMPIEZA_PRINCIPAL true.

Definition sample_now : string := "2026-06-30T10:00:00+00:00".

Definition invalid_date_body : RequestBody.t :=
  RequestBody.mk "invalid-date" "joan" "cocina" "limpieza_principal" true.

(** Monday 9999-12-27, the first day of the last week of the calendar. *)
Definition LAST_MONDAY : Z := 3652055.

(** The identifiers a schedule carries: its own and those of its tasks. *)
Definition ids_of (s : WeekSchedule.t) : list string :=
  WeekSchedule.id s :: map PersonTask.id (WeekSchedule.tasks s).

Definition is_main_task_of (p : PersonType) (t : PersonTask.t) : bool :=
  String.eqb (PersonType_value (PersonTask.person t)) (PersonType_value p)
  && String.eqb (TaskType_value (PersonTask.task_type t))
       (TaskType_value LIMPIEZA_PRINCIPAL).

Definition is_task_at (a : AreaType) (t : PersonTask.t) : bool :=
  String.eqb (AreaType_value (PersonTask.area t)) (AreaType_value a).

(** A collection none of whose tasks has been completed. *)
Definition fresh (db : collection) : Prop :=
  forall d t, In d db -> In t (WeekSchedule.tasks d) ->
    PersonTask.limpieza_completada t = false
    /\ PersonTask.completed_at t = None.

(** The JSON body that carries a given update. *)
Definition body_of (u : TaskCompletionUpdate.t) : RequestBody.t :=
  RequestBody.mk (TaskCompletionUpdate.week_start u)
    (PersonType_value (TaskCompletionUpdate.person u))
    (AreaType_value (TaskCompletionUpdate.area u))
    (TaskType_value (TaskCompletionUpdate.task_type u))
    (TaskCompletionUpdate.completed u).

(** The same request with another [completed]. *)
Definition with_completed (u : TaskCompletionUpdate.t) (completed : bool)
  : TaskCompletionUpdate.t :=
  TaskCompletionUpdate.mk (TaskCompletionUpdate.week_start u)
    (TaskCompletionUpdate.person u) (TaskCompletionUpdate.area u)
    (TaskCompletionUpdate.task_type u) completed.

Definition week_start_le (a b : WeekSchedule.t) : Prop :=
  String.leb (WeekSchedule.week_start a) (WeekSchedule.week_start b) = true.

Definition week_start_lt (a b : WeekSchedule.t) : Prop :=
  String.ltb (WeekSchedule.week_start a) (WeekSchedule.week_start b) = true.

(** Lexicographic order on pairs, and the bounded checks behind the order
    of formatted dates. *)
Definition lex_lt (p q : Z * Z) : bool :=
  (fst p <? fst q) || ((fst p =? fst q) && (snd p <? snd q)).

Definition month_day_step_ok (leapyear : bool) (n : Z) : bool :=
  lex_lt (month_day leapyear n) (month_day leapyear (n + 1)).

Definition comparison_eqb (c c' : comparison) : bool :=
  match c, c' with
  | Eq, Eq | Lt, Lt | Gt, Gt => true
  | _, _ => false
  end.

Definition format_2_compare_ok (a : Z) : bool :=
  all_from
    (fun b => comparison_eqb
                (String.compare (Date.format_0d 2 a) (Date.format_0d 2 b))
                (a ?= b))
    (Z.to_nat 100) 0.

Definition format_4_split_ok (y : Z) : bool :=
  String.eqb (Date.format_0d 4 y)
    (Date.format_0d 2 (y / 100) ++ Date.format_0d 2 (y mod 100))%string.

(** Monday 2026-06-29, the last Monday on or before the end date. *)
Definition LAST_WEEK : Z := 739796.

(** ** Dates *)

Lemma end_date_ordinal : end_date = 739798.
Proof. reflexivity. Qed.

Lemma weekday_range (d : Z) : 0 <= Date.weekday d < 7.
Proof. unfold Date.weekday. apply Z.mod_pos_bound. lia. Qed.

Lemma weekday_step (d : Z) : Date.weekday (d + 7) = Date.weekday d.
Proof.
  unfold Date.weekday.
  replace (d + 7 + 6) with (d + 6 + 1 * 7) by lia.
  apply Z.mod_add. lia.
Qed.

Lemma add_in_range (d days : Z) :
  0 < d + days <= Date.MAXORDINAL -> Date.add d days = Ok (d + days).
Proof.
  intros [Hlo Hhi]. unfold Date.add.
  apply Z.ltb_lt in Hlo. apply Z.leb_le in Hhi.
  rewrite Hlo, Hhi. reflexivity.
Qed.

Lemma add_inv (d days o : Z) :
  Date.add d days = Ok o -> o = d + days /\ 0 < o <= Date.MAXORDINAL.
Proof.
  unfold Date.add.
  destruct (0 <? d + days) eqn:Hlo; [|discriminate].
  destruct (d + days <=? Date.MAXORDINAL) eqn:Hhi; [|discriminate].
  simpl. intros [= <-].
  apply Z.ltb_lt in Hlo. apply Z.leb_le in Hhi. lia.
Qed.

(** The Monday of a week is never before day 1, which is itself a Monday. *)
Lemma monday_of_week_positive (d : Z) : 1 <= d -> 1 <= d - Date.weekday d.
Proof.
  intros Hd. unfold Date.weekday.
  pose proof (Z.div_mod (d + 6) 7 ltac:(lia)) as Hdm.
  pose proof (Z.mod_pos_bound (d + 6) 7 ltac:(lia)) as Hb.
  assert (1 <= (d + 6) / 7) by (apply Z.div_le_lower_bound; lia).
  lia.
Qed.

Lemma weekday_of_monday (d : Z) : Date.weekday (d - Date.weekday d) = 0.
Proof.
  unfold Date.weekday.
  pose proof (Z.div_mod (d + 6) 7 ltac:(lia)) as Hdm.
  replace (d - (d + 6) mod 7 + 6) with (0 + (d + 6) / 7 * 7) by lia.
  rewrite Z.mod_add by lia. reflexivity.
Qed.

Lemma get_monday_of_week_valid (d : Z) :
  valid_date d -> get_monday_of_week d = Ok (d - Date.weekday d).
Proof.
  intros [Hlo Hhi]. unfold get_monday_of_week, Date.sub.
  pose proof (weekday_range d). pose proof (monday_of_week_positive _ Hlo).
  rewrite add_in_range by lia. f_equal.
Qed.

Lemma get_sunday_of_week_monday (monday : Z) :
  1 <= monday -> monday + 6 <= Date.MAXORDINAL ->
  get_sunday_of_week monday = Ok (monday - Date.weekday monday + 6).
Proof.
  intros Hlo Hhi. unfold get_sunday_of_week.
  pose proof (weekday_range monday).
  rewrite get_monday_of_week_valid by (unfold valid_date; lia).
  simpl. pose proof (monday_of_week_positive _ Hlo).
  apply add_in_range. lia.
Qed.

(** [get_next_monday] lands seven days after the Monday of today's week. *)
Lemma get_next_monday_add (today : Z) :
  get_next_monday today = Date.add today (7 - Date.weekday today).
Proof.
  unfold get_next_monday. pose proof (weekday_range today) as Hw.
  destruct (Z.eq_dec (Date.weekday today) 0) as [H0 | Hn0].
  - rewrite H0. reflexivity.
  - rewrite (Z.mod_small (7 - Date.weekday today) 7) by lia.
    destruct (7 - Date.weekday today =? 0) eqn:E; [|reflexivity].
    apply Z.eqb_eq in E. lia.
Qed.

Lemma get_next_monday_inv (today start : Z) :
  get_next_monday today = Ok start ->
  start = today - Date.weekday today + 7 /\ Date.weekday start = 0
  /\ 0 < start <= Date.MAXORDINAL.
Proof.
  rewrite get_next_monday_add. intros H. apply add_inv in H.
  destruct H as [-> Hr]. split; [lia|]. split; [|exact Hr].
  replace (today + (7 - Date.weekday today))
    with (today - Date.weekday today + 7) by lia.
  rewrite weekday_step. apply weekday_of_monday.
Qed.

(** ** The calendar: [ord2ymd] is inverted by [ymd2ord], [isoformat] is
    one-to-one *)

Lemma all_from_sound (P : Z -> bool) (fuel : nat) (r : Z) :
  all_from P fuel r = true ->
  forall k, r <= k < r + Z.of_nat fuel -> P k = true.
Proof.
  revert r. induction fuel as [|fuel IH]; intros r H k Hk; [lia|].
  cbn [all_from] in H. apply andb_true_iff in H. destruct H as [Hr Hrest].
  destruct (Z.eq_dec k r) as [-> | Hne]; [exact Hr|].
  apply (IH (r + 1) Hrest). lia.
Qed.

Lemma all_below (P : Z -> bool) (bound : Z) :
  all_from P (Z.to_nat bound) 0 = true ->
  forall k, 0 <= k < bound -> P k = true.
Proof.
  intros H k Hk. apply (all_from_sound P (Z.to_nat bound) 0 H). lia.
Qed.

Lemma month_day_checked (leapyear : bool) :
  all_from (month_day_ok leapyear) (Z.to_nat 365) 0 = true.
Proof. destruct leapyear; vm_compute; reflexivity. Qed.

Lemma ord2ymd_parts (n : Z) :
  let n0 := n - 1 in
  let n400 := n0 / 146097 in
  let r400 := n0 mod 146097 in
  let n100 := r400 / 36524 in
  let r100 := r400 mod 36524 in
  let n4 := r100 / 1461 in
  let r4 := r100 mod 1461 in
  let n1 := r4 / 365 in
  let r1 := r4 mod 365 in
  let year := n400 * 400 + 1 + (n100 * 100 + n4 * 4 + n1) in
  Date.ord2ymd n =
  if (n1 =? 4) || (n100 =? 4) then (year - 1, 12, 31)
  else
    let leapyear := (n1 =? 3) && (negb (n4 =? 24) || (n100 =? 3)) in
    (year, fst (month_day leapyear r1), snd (month_day leapyear r1)).
Proof.
  cbv zeta. unfold Date.ord2ymd, month_day, Date.DI400Y, Date.DI100Y, Date.DI4Y.
  cbv zeta.
  destruct (_ || _); [reflexivity|].
  destruct (_ <? _); reflexivity.
Qed.


Lemma ord2ymd_decompose (n : Z) :
  valid_date n ->
  let n0 := n - 1 in
  let n400 := n0 / 146097 in
  let r400 := n0 mod 146097 in
  let n100 := r400 / 36524 in
  let r100 := r400 mod 36524 in
  let n4 := r100 / 1461 in
  let r4 := r100 mod 1461 in
  let n1 := r4 / 365 in
  let r1 := r4 mod 365 in
  0 <= n400 <= 24 /\ 0 <= n100 <= 4 /\ 0 <= n4 <= 24 /\ 0 <= n1 <= 4
  /\ 0 <= r1 < 365
  /\ n0 = 146097 * n400 + 36524 * n100 + 1461 * n4 + 365 * n1 + r1
  /\ (n100 = 4 -> n4 = 0 /\ n1 = 0 /\ r1 = 0)
  /\ (n1 = 4 -> r1 = 0 /\ n4 <= 23)
  /\ n400 * 400 + 1 + (n100 * 100 + n4 * 4 + n1) <= 10000
  /\ (n400 * 400 + 1 + (n100 * 100 + n4 * 4 + n1) = 10000 ->
      n100 = 4 \/ n1 = 4).
Proof.
  unfold valid_date, Date.MAXORDINAL. intros Hv. cbv zeta.
  Z.div_mod_to_equations. lia.
Qed.

Lemma days_before_year_parts (n400 n100 n4 n1 : Z) :
  0 <= n100 <= 3 -> 0 <= n4 <= 24 -> 0 <= n1 <= 3 ->
  Date.days_before_year (n400 * 400 + 1 + (n100 * 100 + n4 * 4 + n1))
  = 146097 * n400 + 36524 * n100 + 1461 * n4 + 365 * n1.
Proof.
  intros H100 H4 H1. unfold Date.days_before_year. cbv zeta.
  Z.div_mod_to_equations. lia.
Qed.

Lemma is_leap_parts (n400 n100 n4 n1 : Z) :
  0 <= n100 <= 3 -> 0 <= n4 <= 24 -> 0 <= n1 <= 3 ->
  Date.is_leap (n400 * 400 + 1 + (n100 * 100 + n4 * 4 + n1))
  = (n1 =? 3) && (negb (n4 =? 24) || (n100 =? 3)).
Proof.
  intros H100 H4 H1. unfold Date.is_leap.
  repeat match goal with
         | |- context [?a =? ?b] => destruct (Z.eqb_spec a b)
         end; cbn; try reflexivity; exfalso;
    Z.div_mod_to_equations; lia.
Qed.

Lemma ord2ymd_ymd2ord (n : Z) :
  valid_date n ->
  Date.ymd2ord (Date.year n) (Date.month n) (Date.day n) = n
  /\ 1 <= Date.year n <= 9999
  /\ 1 <= Date.month n <= 12
  /\ 1 <= Date.day n <= 31.
Proof.
  intros Hv. unfold Date.year, Date.month, Date.day.
  rewrite ord2ymd_parts. cbv zeta.
  pose proof (ord2ymd_decompose n Hv) as Hd. cbv zeta in Hd.
  set (n400 := (n - 1) / 146097) in *.
  set (r400 := (n - 1) mod 146097) in *.
  set (n100 := r400 / 36524) in *.
  set (r100 := r400 mod 36524) in *.
  set (n4 := r100 / 1461) in *.
  set (r4 := r100 mod 1461) in *.
  set (n1 := r4 / 365) in *.
  set (r1 := r4 mod 365) in *.
  destruct Hd as (H400 & H100 & H4 & H1 & Hr1 & Hn & Hc & Hy & Hmax & Hmax').
  clearbody r1 n1. clearbody r4 n4. clearbody r100 n100. clearbody r400 n400.
  destruct ((n1 =? 4) || (n100 =? 4)) eqn:Hspecial.
  - cbn [fst snd]. apply orb_true_iff in Hspecial.
    rewrite !Z.eqb_eq in Hspecial.
    split; [|lia].
    set (y := n400 * 400 + 1 + (n100 * 100 + n4 * 4 + n1) - 1).
    assert (Hleap : Date.is_leap y = true).
    { unfold Date.is_leap. apply andb_true_iff. split.
      - apply Z.eqb_eq. subst y. Z.div_mod_to_equations. lia.
      - destruct (Z.eqb_spec (y mod 100) 0) as [H0 | H0]; [|reflexivity].
        apply Z.eqb_eq. subst y. Z.div_mod_to_equations. lia. }
    unfold Date.ymd2ord, Date.days_before_month. rewrite Hleap.
    change (Date.index Date.DAYS_BEFORE_MONTH 12) with 334.
    change (Z.b2z ((2 <? 12) && true)) with 1.
    unfold Date.days_before_year. cbv zeta. subst y.
    Z.div_mod_to_equations. lia.
  - apply orb_false_iff in Hspecial. rewrite !Z.eqb_neq in Hspecial.
    cbn [fst snd].
    set (leapyear := (n1 =? 3) && (negb (n4 =? 24) || (n100 =? 3))).
    pose proof (all_below _ _ (month_day_checked leapyear) r1
                  ltac:(lia)) as Hmd.
    unfold month_day_ok in Hmd.
    destruct (month_day leapyear r1) as [m d]. cbn [fst snd].
    rewrite !andb_true_iff, !Z.leb_le, Z.eqb_eq in Hmd.
    split; [|lia].
    unfold Date.ymd2ord, Date.days_before_month.
    rewrite is_leap_parts, days_before_year_parts by lia.
    fold leapyear. lia.
Qed.

Lemma append_inj (s1 s2 t1 t2 : string) :
  String.length s1 = String.length s2 ->
  (s1 ++ t1)%string = (s2 ++ t2)%string -> s1 = s2 /\ t1 = t2.
Proof.
  revert s2. induction s1 as [|c s1 IH]; intros [|c2 s2] Hlen Heq;
    try discriminate; cbn in *.
  - split; [reflexivity | exact Heq].
  - injection Heq as -> Heq. injection Hlen as Hlen.
    destruct (IH s2 Hlen Heq) as [-> ->]. split; reflexivity.
Qed.

Lemma format_4_checked : all_from (format_ok 4) (Z.to_nat 10000) 0 = true.
Proof. vm_compute. reflexivity. Qed.

Lemma format_2_checked : all_from (format_ok 2) (Z.to_nat 100) 0 = true.
Proof. vm_compute. reflexivity. Qed.

Lemma format_ok_inj (width : nat) (a b : Z) :
  format_ok width a = true -> format_ok width b = true ->
  Date.format_0d width a = Date.format_0d width b -> a = b.
Proof.
  unfold format_ok. rewrite !andb_true_iff, !Z.eqb_eq.
  intros [Ha _] [Hb _] Heq. rewrite <- Ha, <- Hb, Heq. reflexivity.
Qed.

Lemma isoformat_inj (a b : Z) :
  valid_date a -> valid_date b ->
  Date.isoformat a = Date.isoformat b -> a = b.
Proof.
  intros Ha Hb Heq.
  destruct (ord2ymd_ymd2ord a Ha) as (Hoa & Hya & Hma & Hda).
  destruct (ord2ymd_ymd2ord b Hb) as (Hob & Hyb & Hmb & Hdb).
  pose proof (all_below _ _ format_4_checked) as H4.
  pose proof (all_below _ _ format_2_checked) as H2.
  assert (Fya := H4 (Date.year a) ltac:(lia)).
  assert (Fyb := H4 (Date.year b) ltac:(lia)).
  assert (Fma := H2 (Date.month a) ltac:(lia)).
  assert (Fmb := H2 (Date.month b) ltac:(lia)).
  assert (Fda := H2 (Date.day a) ltac:(lia)).
  assert (Fdb := H2 (Date.day b) ltac:(lia)).
  unfold Date.isoformat in Heq.
  assert (Hlen : forall w x y, format_ok w x = true -> format_ok w y = true ->
            String.length (Date.format_0d w x)
            = String.length (Date.format_0d w y)).
  { intros w x y Hx Hy. unfold format_ok in Hx, Hy.
    apply andb_true_iff in Hx, Hy. destruct Hx as [_ Hx], Hy as [_ Hy].
    apply Nat.eqb_eq in Hx, Hy. congruence. }
  apply append_inj in Heq; [|apply Hlen; assumption].
  destruct Heq as [Hy Heq]. cbn [String.append] in Heq.
  injection Heq as Heq.
  apply append_inj in Heq; [|apply Hlen; assumption].
  destruct Heq as [Hm Heq]. cbn [String.append] in Heq.
  injection Heq as Hd.
  apply format_ok_inj in Hy, Hm, Hd; try assumption.
  congruence.
Qed.

(** ** The generator *)

Section GeneratorProperties.

Variable uuid4 : nat -> string.

(** What one pass of the loop builds for the Monday [monday]. *)
Lemma week_body_run (monday week_counter sunday : Z) (n : nat) :
  get_sunday_of_week monday = Ok sunday ->
  week_body uuid4 monday week_counter n =
  Ok (week_record uuid4 monday sunday week_counter n, (n + 7)%nat).
Proof.
  intros Hsunday. unfold week_body, week_record, born, bind, lift.
  rewrite Hsunday. simpl rbind.
  pose proof (Z.mod_pos_bound week_counter 2 ltac:(lia)) as Hpar.
  replace (n + 1)%nat with (S n) by lia.
  replace (n + 2)%nat with (S (S n)) by lia.
  replace (n + 3)%nat with (S (S (S n))) by lia.
  replace (n + 4)%nat with (S (S (S (S n)))) by lia.
  replace (n + 5)%nat with (S (S (S (S (S n))))) by lia.
  replace (n + 6)%nat with (S (S (S (S (S (S n)))))) by lia.
  replace (n + 7)%nat with (S (S (S (S (S (S (S n))))))) by lia.
  destruct (week_counter mod 2 =? 0) eqn:Heven.
  - apply Z.eqb_eq in Heven. rewrite Heven. reflexivity.
  - apply Z.eqb_neq in Heven.
    replace (week_counter mod 2) with 1 by lia. reflexivity.
Qed.

Lemma weeks_loop_step (current_date week_counter : Z)
  (schedules : list WeekSchedule.t) (n : nat) :
  weeks_loop uuid4 current_date week_counter schedules n =
  if current_date <=? end_date then
    match week_body uuid4 current_date week_counter n with
    | Raise e => Raise e
    | Ok (schedule, n') =>
        match Date.add current_date 7 with
        | Raise e => Raise e
        | Ok next =>
            weeks_loop uuid4 next (week_counter + 1)
              (schedules ++ [schedule]) n'
        end
    end
  else Ok (schedules, n).
Proof.
  funelim (weeks_loop uuid4 current_date week_counter schedules n);
    repeat match goal with
      | E : (_ <=? _) = _ |- _ => rewrite E
      | E : week_body _ _ _ _ = _ |- _ => rewrite E
      | E : Date.add _ _ = _ |- _ => rewrite E
      end; reflexivity.
Qed.

Lemma week_body_in_horizon (monday week_counter : Z) (n : nat) :
  1 <= monday <= end_date ->
  exists s, week_body uuid4 monday week_counter n = Ok (s, (n + 7)%nat).
Proof.
  intros [Hlo Hhi]. rewrite end_date_ordinal in Hhi.
  eexists. apply week_body_run.
  apply get_sunday_of_week_monday; unfold Date.MAXORDINAL; lia.
Qed.

Lemma weeks_in_horizon (current_date : Z) :
  current_date <= end_date ->
  Z.to_nat ((end_date - current_date + 7) / 7) =
  S (Z.to_nat ((end_date - (current_date + 7) + 7) / 7)).
Proof.
  intros Hle.
  replace (end_date - current_date + 7)
    with (end_date - (current_date + 7) + 7 + 1 * 7) by lia.
  rewrite Z.div_add by lia.
  assert (0 <= (end_date - (current_date + 7) + 7) / 7)
    by (apply Z.div_pos; lia).
  lia.
Qed.

(** The loop returns, and appends one schedule per Monday of the horizon:
    the [i]-th of them is what the body builds for [current_date + 7 i]
    with the counter at [week_counter + i]. *)
Lemma weeks_loop_spec (current_date week_counter : Z)
  (schedules : list WeekSchedule.t) (n : nat) :
  1 <= current_date ->
  exists l n',
    weeks_loop uuid4 current_date week_counter schedules n
    = Ok (schedules ++ l, n')
    /\ List.length l = Z.to_nat ((end_date - current_date + 7) / 7)
    /\ forall i s, nth_error l i = Some s ->
         exists m,
           week_body uuid4 (current_date + 7 * Z.of_nat i)
             (week_counter + Z.of_nat i) m = Ok (s, (m + 7)%nat).
Proof.
  funelim (weeks_loop uuid4 current_date week_counter schedules n);
    intros Hpos.
  - exists [], n. rewrite app_nil_r. split; [reflexivity|]. split.
    + pose proof (proj1 (Z.leb_gt _ _) e) as Hgt.
      assert ((end_date - current_date + 7) / 7 <= 0)
        by (apply Z.lt_succ_r, Z.div_lt_upper_bound; lia).
      cbn [List.length]. lia.
    + intros [|i] s; discriminate.
  - pose proof (proj1 (Z.leb_le _ _) Hle) as Hle'.
    destruct (week_body_in_horizon _ week_counter n (conj Hpos Hle')) as [s Hs].
    congruence.
  - pose proof (proj1 (Z.leb_le _ _) Hle) as Hle'.
    destruct (add_inv _ _ _ Hnext) as [Hn _].
    match goal with
    | IH : 1 <= _ -> exists _ _, _ |- _ =>
        destruct (IH ltac:(lia)) as (l & n'' & Hrun & Hlen & Hnth)
    end.
    rewrite Hn in Hlen, Hnth.
    exists (schedule :: l), n''. split; [|split].
    + rewrite Hrun, <- app_assoc. reflexivity.
    + cbn [List.length]. rewrite Hlen. symmetry.
      apply weeks_in_horizon. exact Hle'.
    + intros [|i] s Hi.
      * injection Hi as <-. exists n.
        destruct (week_body_in_horizon _ week_counter n (conj Hpos Hle'))
          as [s Hs].
        rewrite Z.mul_0_r, !Z.add_0_r. congruence.
      * destruct (Hnth i s Hi) as [m Hm]. exists m.
        rewrite <- Hm. f_equal; lia.
  - pose proof (proj1 (Z.leb_le _ _) Hle) as Hle'.
    rewrite end_date_ordinal in Hle'.
    pose proof (add_in_range current_date 7) as Hadd.
    assert (Hr : Date.add current_date 7 = Ok (current_date + 7))
      by (apply Hadd; unfold Date.MAXORDINAL; lia).
    congruence.
Qed.

Lemma weekday_weeks (d : Z) (i : nat) :
  Date.weekday (d + 7 * Z.of_nat i) = Date.weekday d.
Proof.
  unfold Date.weekday.
  replace (d + 7 * Z.of_nat i + 6) with (d + 6 + Z.of_nat i * 7) by lia.
  apply Z.mod_add. lia.
Qed.

Lemma index_in_horizon (start : Z) (i : nat) :
  (i < Z.to_nat ((end_date - start + 7) / 7))%nat ->
  start + 7 * Z.of_nat i <= end_date.
Proof.
  intros Hi.
  pose proof (Z.mul_div_le (end_date - start + 7) 7 ltac:(lia)).
  lia.
Qed.

(** A run of the generator from a start Monday that could be computed. *)
Lemma generate_all_schedules_run (today start : Z) (n : nat) :
  get_next_monday today = Ok start ->
  exists l n',
    generate_all_schedules uuid4 today n = Ok (l, n')
    /\ List.length l = Z.to_nat ((end_date - start + 7) / 7)
    /\ forall i s, nth_error l i = Some s ->
         exists m,
           s = week_record uuid4 (start + 7 * Z.of_nat i)
                 (start + 7 * Z.of_nat i + 6) (Z.of_nat i) m.
Proof.
  intros Hstart.
  destruct (get_next_monday_inv _ _ Hstart) as (_ & Hmon & Hpos & _).
  destruct (weeks_loop_spec start 0 [] n ltac:(lia))
    as (l & n' & Hrun & Hlen & Hnth).
  exists l, n'. split; [|split; [exact Hlen|]].
  - unfold generate_all_schedules, bind, lift. rewrite Hstart. exact Hrun.
  - intros i s Hi. destruct (Hnth i s Hi) as [m Hm]. exists m.
    assert (Hin : start + 7 * Z.of_nat i <= end_date).
    { apply index_in_horizon. rewrite <- Hlen.
      apply nth_error_Some. congruence. }
    rewrite end_date_ordinal in Hin.
    rewrite (week_body_run (start + 7 * Z.of_nat i) (0 + Z.of_nat i)
               (start + 7 * Z.of_nat i + 6) m) in Hm.
    + injection Hm as <-. reflexivity.
    + rewrite get_sunday_of_week_monday by (unfold Date.MAXORDINAL; lia).
      rewrite weekday_weeks, Hmon. f_equal. lia.
Qed.

(** The generator returns for every current date whose next Monday is still
    a date; in the last days of year 9999 computing that Monday overflows. *)
Lemma generate_all_schedules_returns (today : Z) (n : nat) :
  valid_date today ->
  today - Date.weekday today + 7 <= Date.MAXORDINAL ->
  exists l n', generate_all_schedules uuid4 today n = Ok (l, n').
Proof.
  intros [Hlo Hhi] Hnext.
  pose proof (monday_of_week_positive today Hlo) as Hmon.
  assert (Hstart : get_next_monday today
                   = Ok (today + (7 - Date.weekday today))).
  { rewrite get_next_monday_add. apply add_in_range. lia. }
  destruct (generate_all_schedules_run _ _ n Hstart) as (l & n' & Hrun & _).
  exists l, n'. exact Hrun.
Qed.

Lemma generate_all_schedules_overflow (today : Z) (n : nat) :
  Date.MAXORDINAL < today - Date.weekday today + 7 ->
  generate_all_schedules uuid4 today n = Raise OverflowError.
Proof.
  intros Hover. unfold generate_all_schedules, bind, lift.
  rewrite get_next_monday_add. unfold Date.add.
  replace (today + (7 - Date.weekday today) <=? Date.MAXORDINAL) with false
    by (symmetry; apply Z.leb_gt; lia).
  rewrite andb_false_r. reflexivity.
Qed.

Lemma generate_all_schedules_inv (today : Z) (n n' : nat)
  (l : list WeekSchedule.t) :
  generate_all_schedules uuid4 today n = Ok (l, n') ->
  exists start,
    get_next_monday today = Ok start
    /\ List.length l = Z.to_nat ((end_date - start + 7) / 7)
    /\ forall i s, nth_error l i = Some s ->
         exists m,
           s = week_record uuid4 (start + 7 * Z.of_nat i)
                 (start + 7 * Z.of_nat i + 6) (Z.of_nat i) m.
Proof.
  intros Hgen. destruct (get_next_monday today) as [start | e] eqn:Hstart.
  - exists start. split; [reflexivity|].
    destruct (generate_all_schedules_run _ _ n Hstart) as (l0 & n0 & Hrun & H).
    rewrite Hrun in Hgen. injection Hgen as <- <-. exact H.
  - unfold generate_all_schedules, bind, lift in Hgen.
    rewrite Hstart in Hgen. discriminate.
Qed.

(** Every generated schedule is a [week_record] of some horizon Monday. *)
Lemma generated_is_week_record (today : Z) (n n' : nat)
  (l : list WeekSchedule.t) (s : WeekSchedule.t) :
  generate_all_schedules uuid4 today n = Ok (l, n') -> In s l ->
  exists monday week_counter m,
    s = week_record uuid4 monday (monday + 6) week_counter m.
Proof.
  intros Hgen Hin.
  destruct (generate_all_schedules_inv _ _ _ _ Hgen) as (start & _ & _ & Hnth).
  destruct (In_nth_error _ _ Hin) as [i Hi].
  destruct (Hnth i s Hi) as [m ->]. eauto.
Qed.

Lemma counter_parity (i : nat) : (Z.of_nat i mod 2 =? 0) = Nat.even i.
Proof.
  rewrite <- Zeven_mod.
  assert (H : Z.even (Z.of_nat i) = Nat.even i
              /\ Z.even (Z.of_nat (S i)) = Nat.even (S i)).
  { induction i as [|i [IH1 IH2]]; [split; reflexivity|].
    split; [exact IH2|].
    replace (Z.of_nat (S (S i))) with (Z.of_nat i + 2) by lia.
    rewrite Z.even_add, IH1. simpl. destruct (Nat.even i); reflexivity. }
  apply H.
Qed.

(** C1. In every schedule the generator produces, Joan's main area is
    Mery's, Paco's main area is Belen's, the two pairs have different main
    areas, and these are the kitchen and the living room. *)
Theorem pairs_share_main_area (today : Z) (n n' : nat)
  (l : list WeekSchedule.t) (s : WeekSchedule.t) :
  generate_all_schedules uuid4 today n = Ok (l, n') -> In s l ->
  WeekSchedule.joan_area s = WeekSchedule.mery_area s
  /\ WeekSchedule.paco_area s = WeekSchedule.belen_area s
  /\ WeekSchedule.joan_area s <> WeekSchedule.paco_area s
  /\ In (WeekSchedule.joan_area s) [COCINA; SALON_PASILLO]
  /\ In (WeekSchedule.paco_area s) [COCINA; SALON_PASILLO].
Proof.
  intros Hgen Hin.
  destruct (generated_is_week_record _ _ _ _ _ Hgen Hin)
    as (monday & week_counter & m & ->).
  unfold week_record. cbn [WeekSchedule.joan_area WeekSchedule.mery_area
    WeekSchedule.paco_area WeekSchedule.belen_area].
  destruct (week_counter mod 2 =? 0); cbn [In];
    repeat split; try discriminate; auto.
Qed.

(** C2. In the schedule of index [i], Joan and Paco have bathroom duty
    exactly when [i] is even, Mery and Belen exactly when [i] is odd; so
    the two of a pair never have the same flag. *)
Theorem bano_follows_week_parity (today : Z) (n n' : nat)
  (l : list WeekSchedule.t) (i : nat) (s : WeekSchedule.t) :
  generate_all_schedules uuid4 today n = Ok (l, n') ->
  nth_error l i = Some s ->
  WeekSchedule.joan_bano s = Nat.even i
  /\ WeekSchedule.paco_bano s = Nat.even i
  /\ WeekSchedule.mery_bano s = Nat.odd i
  /\ WeekSchedule.belen_bano s = Nat.odd i
  /\ WeekSchedule.joan_bano s <> WeekSchedule.mery_bano s
  /\ WeekSchedule.paco_bano s <> WeekSchedule.belen_bano s.
Proof.
  intros Hgen Hi.
  destruct (generate_all_schedules_inv _ _ _ _ Hgen) as (start & _ & _ & Hnth).
  destruct (Hnth i s Hi) as [m ->].
  unfold week_record. cbn [WeekSchedule.joan_bano WeekSchedule.mery_bano
    WeekSchedule.paco_bano WeekSchedule.belen_bano].
  rewrite counter_parity, Nat.negb_even.
  unfold Nat.odd. destruct (Nat.even i); cbn [negb];
    repeat split; discriminate.
Qed.

(** C5. The tasks of a generated schedule are, in this order and up to
    their identifiers: one main-cleaning task per person at the main area
    the schedule records for that person, then one bathroom-cleaning task,
    at the bathroom of that person's pair, for each person whose bathroom
    flag is set; every one of them is not completed and has no completion
    time. *)
Theorem tasks_of_generated_week (today : Z) (n n' : nat)
  (l : list WeekSchedule.t) (s : WeekSchedule.t) :
  generate_all_schedules uuid4 today n = Ok (l, n') -> In s l ->
  map without_id (WeekSchedule.tasks s) =
    map (fun p => (WeekSchedule.week_start s, p, main_area_of s p,
                   LIMPIEZA_PRINCIPAL, false, None)) persons
    ++ map (fun p => (WeekSchedule.week_start s, p, bathroom_of p,
                      LIMPIEZA_BANO, false, None))
         (filter (bano_of s) persons)
  /\ List.length (WeekSchedule.tasks s)
     = (4 + List.length (filter (bano_of s) persons))%nat
  /\ Forall (fun t => PersonTask.limpieza_completada t = false
                      /\ PersonTask.completed_at t = None)
       (WeekSchedule.tasks s).
Proof.
  intros Hgen Hin.
  destruct (generated_is_week_record _ _ _ _ _ Hgen Hin)
    as (monday & week_counter & m & ->).
  unfold week_record, persons.
  destruct (week_counter mod 2 =? 0); cbn; repeat split;
    repeat constructor.
Qed.

(** C10. Every task embedded in a generated schedule carries the
    [week_start] of that schedule, and no two tasks of one schedule have
    the same (person, area, task_type). *)
Theorem tasks_carry_week_start (today : Z) (n n' : nat)
  (l : list WeekSchedule.t) (s : WeekSchedule.t) :
  generate_all_schedules uuid4 today n = Ok (l, n') -> In s l ->
  (forall t, In t (WeekSchedule.tasks s) ->
     PersonTask.week_start t = WeekSchedule.week_start s)
  /\ NoDup (map task_key (WeekSchedule.tasks s)).
Proof.
  intros Hgen Hin.
  destruct (generated_is_week_record _ _ _ _ _ Hgen Hin)
    as (monday & week_counter & m & ->).
  unfold week_record.
  destruct (week_counter mod 2 =? 0); cbn; split.
  1, 3: intros t Ht; repeat destruct Ht as [<- | Ht]; try reflexivity;
    contradiction.
  all: repeat constructor; cbn; intuition discriminate.
Qed.

(** C3. The first generated schedule starts on the Monday seven days after
    the Monday of the current week, hence strictly after it, and its
    [week_start] is not that of the current week; when today is a Monday it
    starts at today plus seven days, never at today. *)
Theorem first_week_after_current_week (today : Z) (n n' : nat)
  (l : list WeekSchedule.t) (s : WeekSchedule.t) :
  valid_date today ->
  generate_all_schedules uuid4 today n = Ok (l, n') ->
  nth_error l 0 = Some s ->
  exists monday start,
    get_monday_of_week today = Ok monday
    /\ get_next_monday today = Ok start
    /\ WeekSchedule.week_start s = Date.isoformat start
    /\ monday < start
    /\ start = monday + 7
    /\ WeekSchedule.week_start s <> Date.isoformat monday
    /\ (Date.weekday today = 0 ->
        start = today + 7
        /\ WeekSchedule.week_start s <> Date.isoformat today).
Proof.
  intros Hvalid Hgen Hfirst.
  destruct (generate_all_schedules_inv _ _ _ _ Hgen)
    as (start & Hstart & _ & Hnth).
  destruct (Hnth 0%nat s Hfirst) as [m ->].
  destruct (get_next_monday_inv _ _ Hstart) as (Heq & _ & Hrange).
  pose proof (weekday_range today) as Hw.
  pose proof (monday_of_week_positive today (proj1 Hvalid)) as Hmon.
  assert (Hws : WeekSchedule.week_start
                  (week_record uuid4 (start + 7 * Z.of_nat 0)
                     (start + 7 * Z.of_nat 0 + 6) (Z.of_nat 0) m)
                = Date.isoformat start).
  { unfold week_record. cbn [WeekSchedule.week_start]. f_equal. lia. }
  assert (Hdiff : forall d, valid_date d -> d < start ->
                    Date.isoformat start <> Date.isoformat d).
  { intros d Hd Hlt Hiso.
    apply isoformat_inj in Hiso; [lia | unfold valid_date; lia | exact Hd]. }
  exists (today - Date.weekday today), start.
  split; [apply get_monday_of_week_valid; exact Hvalid|].
  split; [exact Hstart|]. split; [exact Hws|].
  split; [lia|]. split; [lia|]. rewrite Hws.
  split; [apply Hdiff; unfold valid_date in *; lia|].
  intros Hmonday. split; [lia|]. apply Hdiff; [exact Hvalid | lia].
Qed.

(** C4. Whenever the start Monday can be computed the generator returns:
    with no schedule at all if that Monday is after the end date, and
    otherwise with a last schedule whose Monday is on or before the end
    date while the Monday after it is past the end date. *)
Theorem last_week_within_horizon (today start : Z) (n : nat) :
  get_next_monday today = Ok start ->
  exists l n',
    generate_all_schedules uuid4 today n = Ok (l, n')
    /\ (end_date < start -> l = [] /\ n' = n)
    /\ (start <= end_date -> l <> [])
    /\ forall s, nth_error l (List.length l - 1) = Some s ->
         let monday := start + 7 * Z.of_nat (List.length l - 1) in
         WeekSchedule.week_start s = Date.isoformat monday
         /\ monday <= end_date
         /\ end_date < monday + 7.
Proof.
  intros Hstart.
  destruct (generate_all_schedules_run _ _ n Hstart)
    as (l & n' & Hrun & Hlen & Hnth).
  exists l, n'. split; [exact Hrun|]. split; [|split].
  - intros Hpast.
    unfold generate_all_schedules, bind, lift in Hrun.
    rewrite Hstart in Hrun. cbn [rbind] in Hrun.
    rewrite weeks_loop_step in Hrun.
    apply Z.leb_gt in Hpast. rewrite Hpast in Hrun.
    injection Hrun as <- <-. split; reflexivity.
  - intros Hle ->. cbn [List.length] in Hlen.
    rewrite (weeks_in_horizon start Hle) in Hlen. discriminate.
  - intros s Hs monday.
    assert (Hi : (List.length l - 1 < List.length l)%nat)
      by (apply nth_error_Some; congruence).
    destruct (Hnth _ s Hs) as [m ->].
    split; [reflexivity|]. subst monday.
    pose proof (Z.div_mod (end_date - start + 7) 7 ltac:(lia)) as Hdm.
    pose proof (Z.mod_pos_bound (end_date - start + 7) 7 ltac:(lia)) as Hb.
    rewrite Hlen in Hi |- *. lia.
Qed.

(** C6 (amended). The schedule of index [i] belongs to the Monday
    [start + 7 i]: its [week_start] is that Monday, its [week_end] is that
    Monday plus 6 days, its [week_number] is the ISO week number of that
    Monday, and its [year] is the calendar year of that Monday. *)
Theorem week_dates_of_generated (today start : Z) (n n' : nat)
  (l : list WeekSchedule.t) (i : nat) (s : WeekSchedule.t) :
  generate_all_schedules uuid4 today n = Ok (l, n') ->
  get_next_monday today = Ok start ->
  nth_error l i = Some s ->
  let monday := start + 7 * Z.of_nat i in
  WeekSchedule.week_start s = Date.isoformat monday
  /\ WeekSchedule.week_end s = Date.isoformat (monday + 6)
  /\ WeekSchedule.week_number s = snd (fst (Date.isocalendar monday))
  /\ WeekSchedule.year s = Date.year monday.
Proof.
  intros Hgen Hstart Hi monday.
  destruct (generate_all_schedules_inv _ _ _ _ Hgen)
    as (start' & Hstart' & _ & Hnth).
  assert (start' = start) as -> by congruence.
  destruct (Hnth i s Hi) as [m ->].
  repeat split.
Qed.

End GeneratorProperties.

(** ** The generator at concrete dates *)

Example first_and_last_day :
  Date.isoformat 1 = "0001-01-01" /\ Date.weekday 1 = 0
  /\ Date.isoformat Date.MAXORDINAL = "9999-12-31"
  /\ Date.add Date.MAXORDINAL 1 = Raise OverflowError.
Proof. repeat split. Qed.

(** The end date is Wednesday 2026-07-01. *)
Example end_date_is_2026_07_01 :
  Date.isoformat end_date = "2026-07-01" /\ Date.weekday end_date = 2.
Proof. split; reflexivity. Qed.

(** Tuesday 2026-06-23: one week is left, that of Monday 2026-06-29. *)
Example generate_on_2026_06_23 :
  Date.isoformat 739790 = "2026-06-23"
  /\ map WeekSchedule.week_start
       (schedules_of (generate_all_schedules uuid_sample 739790 0%nat))
     = ["2026-06-29"].
Proof. split; reflexivity. Qed.

(** Monday 2025-12-22: the rota starts on Monday 2025-12-29, which is in
    ISO week 1 of ISO year 2026 and in calendar year 2025. *)
Example monday_2025_12_29 :
  Date.isoformat 739607 = "2025-12-22" /\ Date.weekday 739607 = 0
  /\ get_next_monday 739607 = Ok 739614
  /\ Date.isoformat 739614 = "2025-12-29"
  /\ Date.isocalendar 739614 = (2026, 1, 1)
  /\ Date.year 739614 = 2025.
Proof. repeat split. Qed.

Lemma pairs_share_main_area_witness :
  exists l n' s,
    generate_all_schedules uuid_sample 739790 0%nat = Ok (l, n') /\ In s l
    /\ WeekSchedule.joan_area s = WeekSchedule.mery_area s
    /\ WeekSchedule.paco_area s = WeekSchedule.belen_area s
    /\ WeekSchedule.joan_area s <> WeekSchedule.paco_area s
    /\ In (WeekSchedule.joan_area s) [COCINA; SALON_PASILLO]
    /\ In (WeekSchedule.paco_area s) [COCINA; SALON_PASILLO].
Proof.
  eexists; eexists; eexists.
  split; [vm_compute; reflexivity|]. split; [left; reflexivity|].
  eapply (pairs_share_main_area uuid_sample 739790 0%nat);
    [vm_compute; reflexivity | left; reflexivity].
Defined.

Lemma bano_follows_week_parity_witness :
  exists l n' s,
    generate_all_schedules uuid_sample 739783 0%nat = Ok (l, n')
    /\ nth_error l 1 = Some s
    /\ WeekSchedule.joan_bano s = Nat.even 1
    /\ WeekSchedule.paco_bano s = Nat.even 1
    /\ WeekSchedule.mery_bano s = Nat.odd 1
    /\ WeekSchedule.belen_bano s = Nat.odd 1
    /\ WeekSchedule.joan_bano s <> WeekSchedule.mery_bano s
    /\ WeekSchedule.paco_bano s <> WeekSchedule.belen_bano s.
Proof.
  eexists; eexists; eexists.
  split; [vm_compute; reflexivity|]. split; [reflexivity|].
  eapply (bano_follows_week_parity uuid_sample 739783 0%nat);
    [vm_compute; reflexivity | reflexivity].
Defined.

Lemma first_week_after_current_week_witness :
  valid_date 739789 /\ Date.weekday 739789 = 0
  /\ exists l n' s,
       generate_all_schedules uuid_sample 739789 0%nat = Ok (l, n')
       /\ nth_error l 0 = Some s
       /\ exists monday start,
            get_monday_of_week 739789 = Ok monday
            /\ get_next_monday 739789 = Ok start
            /\ WeekSchedule.week_start s = Date.isoformat start
            /\ monday < start
            /\ start = monday + 7
            /\ WeekSchedule.week_start s <> Date.isoformat monday
            /\ (Date.weekday 739789 = 0 ->
                start = 739789 + 7
                /\ WeekSchedule.week_start s <> Date.isoformat 739789).
Proof.
  split; [unfold valid_date, Date.MAXORDINAL; lia|].
  split; [reflexivity|].
  eexists; eexists; eexists.
  split; [vm_compute; reflexivity|]. split; [reflexivity|].
  eapply (first_week_after_current_week uuid_sample 739789 0%nat);
    [unfold valid_date, Date.MAXORDINAL; lia
    | vm_compute; reflexivity | reflexivity].
Defined.

Lemma last_week_within_horizon_witness :
  get_next_monday 739790 = Ok 739796
  /\ exists l n',
       generate_all_schedules uuid_sample 739790 0%nat = Ok (l, n')
       /\ (end_date < 739796 -> l = [] /\ n' = 0%nat)
       /\ (739796 <= end_date -> l <> [])
       /\ forall s, nth_error l (List.length l - 1) = Some s ->
            let monday := 739796 + 7 * Z.of_nat (List.length l - 1) in
            WeekSchedule.week_start s = Date.isoformat monday
            /\ monday <= end_date
            /\ end_date < monday + 7.
Proof.
  split; [reflexivity|].
  apply (last_week_within_horizon uuid_sample 739790 739796 0%nat).
  reflexivity.
Defined.

Lemma tasks_of_generated_week_witness :
  exists l n' s,
    generate_all_schedules uuid_sample 739790 0%nat = Ok (l, n') /\ In s l
    /\ map without_id (WeekSchedule.tasks s) =
         map (fun p => (WeekSchedule.week_start s, p, main_area_of s p,
                        LIMPIEZA_PRINCIPAL, false, None)) persons
         ++ map (fun p => (WeekSchedule.week_start s, p, bathroom_of p,
                           LIMPIEZA_BANO, false, None))
              (filter (bano_of s) persons)
    /\ List.length (WeekSchedule.tasks s)
       = (4 + List.length (filter (bano_of s) persons))%nat
    /\ Forall (fun t => PersonTask.limpieza_completada t = false
                        /\ PersonTask.completed_at t = None)
         (WeekSchedule.tasks s).
Proof.
  eexists; eexists; eexists.
  split; [vm_compute; reflexivity|]. split; [left; reflexivity|].
  eapply (tasks_of_generated_week uuid_sample 739790 0%nat);
    [vm_compute; reflexivity | left; reflexivity].
Defined.

Lemma week_dates_of_generated_witness :
  exists l n' s,
    generate_all_schedules uuid_sample 739607 0%nat = Ok (l, n')
    /\ get_next_monday 739607 = Ok 739614
    /\ nth_error l 0 = Some s
    /\ WeekSchedule.week_start s = Date.isoformat (739614 + 7 * Z.of_nat 0)
    /\ WeekSchedule.week_end s = Date.isoformat (739614 + 7 * Z.of_nat 0 + 6)
    /\ WeekSchedule.week_number s
       = snd (fst (Date.isocalendar (739614 + 7 * Z.of_nat 0)))
    /\ WeekSchedule.year s = Date.year (739614 + 7 * Z.of_nat 0).
Proof.
  eexists; eexists; eexists.
  split; [vm_compute; reflexivity|]. split; [reflexivity|].
  split; [reflexivity|].
  eapply (week_dates_of_generated uuid_sample 739607 739614 0%nat);
    [vm_compute; reflexivity | reflexivity | reflexivity].
Defined.

(** C6 as stated fails: the schedule of Monday 2025-12-29 has [year] 2025,
    the calendar year, while that Monday lies in ISO year 2026. *)
Lemma iso_year_counterexample : ~ iso_year_claim.
Proof.
  intros Hclaim.
  assert (Hstart : get_next_monday 739607 = Ok 739614)
    by (vm_compute; reflexivity).
  destruct (generate_all_schedules_run uuid_sample 739607 739614 0%nat
              Hstart) as (l & n' & Hrun & Hlen & Hnth).
  destruct l as [|s l]; [vm_compute in Hlen; discriminate|].
  destruct (Hclaim uuid_sample 739607 739614 0%nat n' (s :: l) 0%nat s
              Hrun Hstart eq_refl) as (_ & _ & Hyear).
  destruct (Hnth 0%nat s eq_refl) as [m Hm].
  rewrite Hm in Hyear. cbn [week_record WeekSchedule.year] in Hyear.
  vm_compute in Hyear. discriminate.
Qed.

Lemma tasks_carry_week_start_witness :
  exists l n' s,
    generate_all_schedules uuid_sample 739790 0%nat = Ok (l, n') /\ In s l
    /\ (forall t, In t (WeekSchedule.tasks s) ->
          PersonTask.week_start t = WeekSchedule.week_start s)
    /\ NoDup (map task_key (WeekSchedule.tasks s)).
Proof.
  eexists; eexists; eexists.
  split; [vm_compute; reflexivity|]. split; [left; reflexivity|].
  eapply (tasks_carry_week_start uuid_sample 739790 0%nat);
    [vm_compute; reflexivity | left; reflexivity].
Defined.

(** ** The schedule store *)

Lemma PersonType_value_inj (p q : PersonType) :
  PersonType_value p = PersonType_value q -> p = q.
Proof. destruct p, q; intros H; try reflexivity; discriminate H. Qed.

Lemma AreaType_value_inj (a b : AreaType) :
  AreaType_value a = AreaType_value b -> a = b.
Proof. destruct a, b; intros H; try reflexivity; discriminate H. Qed.

Lemma TaskType_value_inj (a b : TaskType) :
  TaskType_value a = TaskType_value b -> a = b.
Proof. destruct a, b; intros H; try reflexivity; discriminate H. Qed.

Lemma elemMatch_spec (u : TaskCompletionUpdate.t) (t : PersonTask.t) :
  elemMatch u t = true <-> task_matches u t.
Proof.
  unfold elemMatch, task_matches, task_key.
  rewrite !andb_true_iff, !String.eqb_eq. split.
  - intros [[Hp Ha] Ht].
    apply PersonType_value_inj in Hp. apply AreaType_value_inj in Ha.
    apply TaskType_value_inj in Ht. congruence.
  - intros [= -> -> ->]. repeat split.
Qed.

Lemma filter_query_spec (u : TaskCompletionUpdate.t) (d : WeekSchedule.t) :
  filter_query u d = true <-> schedule_matches u d.
Proof.
  unfold filter_query, schedule_matches.
  rewrite andb_true_iff, String.eqb_eq, existsb_exists.
  split; intros [Hws [t [Hin Ht]]]; (split; [exact Hws|]);
    exists t; (split; [exact Hin|]); apply elemMatch_spec; exact Ht.
Qed.

Lemma has_match_spec (u : TaskCompletionUpdate.t) (db : collection) :
  existsb (filter_query u) db = true <-> has_match u db.
Proof.
  unfold has_match. rewrite existsb_exists.
  split; intros [d [Hin Hd]]; exists d; (split; [exact Hin|]);
    apply filter_query_spec; exact Hd.
Qed.

(** The positional update rewrites the first matching task and only it. *)
Lemma set_positional_spec (u : TaskCompletionUpdate.t)
  (completed_at : option string) (tasks : list PersonTask.t) :
  existsb (elemMatch u) tasks = true ->
  exists j t,
    nth_error tasks j = Some t /\ elemMatch u t = true
    /\ (forall k t', (k < j)%nat -> nth_error tasks k = Some t' ->
          elemMatch u t' = false)
    /\ same_except j tasks (set_positional u completed_at tasks)
    /\ nth_error (set_positional u completed_at tasks) j
       = Some (PersonTask.mk (PersonTask.id t) (PersonTask.week_start t)
                 (PersonTask.person t) (PersonTask.area t)
                 (PersonTask.task_type t)
                 (TaskCompletionUpdate.completed u) completed_at).
Proof.
  induction tasks as [|t0 tasks IH]; [discriminate|].
  cbn [existsb set_positional].
  destruct (elemMatch u t0) eqn:Hm0.
  - intros _. exists 0%nat, t0. split; [reflexivity|]. split; [exact Hm0|].
    split; [intros k t' Hk; lia|]. split; [|reflexivity].
    split; [reflexivity|]. intros [|k] Hk; [lia | reflexivity].
  - cbn [orb]. intros Hex.
    destruct (IH Hex) as (j & t & Hj & Hm & Hfirst & [Hlen Hsame] & Hnew).
    exists (S j), t. split; [exact Hj|]. split; [exact Hm|].
    split; [|split; [split|exact Hnew]].
    + intros [|k] t' Hk Hk'.
      * injection Hk' as <-. exact Hm0.
      * apply (Hfirst k t'); [lia | exact Hk'].
    + cbn [List.length]. rewrite Hlen. reflexivity.
    + intros [|k] Hk; [reflexivity|]. apply Hsame. lia.
Qed.


(** [update_one] rewrites the first document that passes the filter. *)
Lemma update_one_hit (u : TaskCompletionUpdate.t)
  (completed_at : option string) (db : collection) :
  existsb (filter_query u) db = true ->
  exists i d,
    nth_error db i = Some d /\ filter_query u d = true
    /\ (forall k d', (k < i)%nat -> nth_error db k = Some d' ->
          filter_query u d' = false)
    /\ snd (update_one u completed_at db) = 1
    /\ same_except i db (fst (update_one u completed_at db))
    /\ nth_error (fst (update_one u completed_at db)) i
       = Some (update_query u completed_at d).
Proof.
  induction db as [|d0 db IH]; [discriminate|].
  cbn [existsb update_one].
  destruct (filter_query u d0) eqn:Hm0.
  - intros _. exists 0%nat, d0. cbn [fst snd].
    split; [reflexivity|]. split; [exact Hm0|].
    split; [intros k d' Hk; lia|]. split; [reflexivity|].
    split; [|reflexivity].
    split; [reflexivity|]. intros [|k] Hk; [lia | reflexivity].
  - cbn [orb]. intros Hex.
    destruct (IH Hex) as (i & d & Hi & Hm & Hfirst & Hcount & [Hlen Hsame]
                          & Hnew).
    destruct (update_one u completed_at db) as [db' matched_count].
    cbn [fst snd] in *.
    exists (S i), d. split; [exact Hi|]. split; [exact Hm|].
    split; [|split; [exact Hcount|split; [split|exact Hnew]]].
    + intros [|k] d' Hk Hk'.
      * injection Hk' as <-. exact Hm0.
      * apply (Hfirst k d'); [lia | exact Hk'].
    + cbn [List.length]. rewrite Hlen. reflexivity.
    + intros [|k] Hk; [reflexivity|]. apply Hsame. lia.
Qed.

Lemma leb_compare (a b : string) :
  String.leb a b = true <-> String.compare a b <> Gt.
Proof.
  unfold String.leb. destruct (String.compare a b); split; intros H;
    try reflexivity; try discriminate; congruence.
Qed.

Lemma string_leb_refl (a : string) : String.leb a a = true.
Proof. destruct (String.leb_total a a); assumption. Qed.

Lemma string_leb_trans (a b c : string) :
  String.leb a b = true -> String.leb b c = true -> String.leb a c = true.
Proof.
  rewrite !leb_compare. revert b c.
  induction a as [|x a IH]; intros [|y b] [|z c]; cbn [String.compare];
    try congruence.
  unfold Ascii.compare.
  destruct (N.compare_spec (N_of_ascii x) (N_of_ascii y)),
           (N.compare_spec (N_of_ascii y) (N_of_ascii z)),
           (N.compare_spec (N_of_ascii x) (N_of_ascii z));
    try lia; try congruence.
  apply IH.
Qed.



(** C7. When a request designates a task of the collection, [complete_task]
    succeeds and rewrites exactly one task: the first matching task of the
    first matching schedule.  Its completion flag becomes the requested
    one, its completion time becomes the current time when marking
    complete and is cleared otherwise; its other fields, the other tasks,
    the other fields of its schedule and the other schedules are
    unchanged. *)
Theorem complete_task_touches_one_task (u : TaskCompletionUpdate.t)
  (now : string) (db : collection) :
  has_match u db ->
  exists i d j t d' t',
    nth_error db i = Some d /\ schedule_matches u d
    /\ (forall k d0, (k < i)%nat -> nth_error db k = Some d0 ->
          ~ schedule_matches u d0)
    /\ nth_error (WeekSchedule.tasks d) j = Some t /\ task_matches u t
    /\ (forall k t0, (k < j)%nat ->
          nth_error (WeekSchedule.tasks d) k = Some t0 ->
          ~ task_matches u t0)
    /\ fst (complete_task u now db)
       = Ok ("Tarea actualizada correctamente",
             TaskCompletionUpdate.completed u)
    /\ same_except i db (snd (complete_task u now db))
    /\ nth_error (snd (complete_task u now db)) i = Some d'
    /\ d' = WeekSchedule.mk (WeekSchedule.id d) (WeekSchedule.week_start d)
              (WeekSchedule.week_end d) (WeekSchedule.week_number d)
              (WeekSchedule.year d)
              (WeekSchedule.joan_area d) (WeekSchedule.mery_area d)
              (WeekSchedule.paco_area d) (WeekSchedule.belen_area d)
              (WeekSchedule.joan_bano d) (WeekSchedule.mery_bano d)
              (WeekSchedule.paco_bano d) (WeekSchedule.belen_bano d)
              (WeekSchedule.tasks d')
    /\ same_except j (WeekSchedule.tasks d) (WeekSchedule.tasks d')
    /\ nth_error (WeekSchedule.tasks d') j = Some t'
    /\ PersonTask.id t' = PersonTask.id t
    /\ PersonTask.week_start t' = PersonTask.week_start t
    /\ task_key t' = task_key t
    /\ (TaskCompletionUpdate.completed u = true ->
        PersonTask.limpieza_completada t' = true
        /\ PersonTask.completed_at t' = Some now)
    /\ (TaskCompletionUpdate.completed u = false ->
        PersonTask.limpieza_completada t' = false
        /\ PersonTask.completed_at t' = None).
Proof.
  intros Hmatch. apply has_match_spec in Hmatch.
  set (completed_at :=
         if TaskCompletionUpdate.completed u then Some now else None).
  destruct (update_one_hit u completed_at db Hmatch)
    as (i & d & Hi & Hd & Hfirst & Hcount & Hsame & Hnew).
  assert (Hex : existsb (elemMatch u) (WeekSchedule.tasks d) = true).
  { unfold filter_query in Hd. apply andb_true_iff in Hd. apply Hd. }
  destruct (set_positional_spec u completed_at _ Hex)
    as (j & t & Hj & Ht & Htfirst & Htsame & Htnew).
  exists i, d, j, t, (update_query u completed_at d).
  eexists.
  unfold complete_task. fold completed_at.
  destruct (update_one u completed_at db) as [db' matched_count].
  cbn [fst snd] in *. subst matched_count. cbn [Z.eqb except_500].
  split; [exact Hi|]. split; [apply filter_query_spec; exact Hd|].
  split.
  { intros k d0 Hk Hk0 Hm. apply filter_query_spec in Hm.
    rewrite (Hfirst k d0 Hk Hk0) in Hm. discriminate. }
  split; [exact Hj|]. split; [apply elemMatch_spec; exact Ht|].
  split.
  { intros k t0 Hk Hk0 Hm. apply elemMatch_spec in Hm.
    rewrite (Htfirst k t0 Hk Hk0) in Hm. discriminate. }
  split; [reflexivity|]. split; [exact Hsame|]. split; [exact Hnew|].
  split; [reflexivity|]. split; [exact Htsame|]. split; [exact Htnew|].
  cbn [PersonTask.id PersonTask.week_start task_key PersonTask.person
       PersonTask.area PersonTask.task_type PersonTask.limpieza_completada
       PersonTask.completed_at].
  do 3 (split; [reflexivity|]). subst completed_at.
  split; intros ->; split; reflexivity.
Qed.






Lemma complete_task_found (u : TaskCompletionUpdate.t) (now : string)
  (db : collection) :
  has_match u db ->
  fst (complete_task u now db)
  = Ok ("Tarea actualizada correctamente", TaskCompletionUpdate.completed u).
Proof.
  intros Hmatch. apply has_match_spec in Hmatch. unfold complete_task.
  destruct (update_one_hit u
              (if TaskCompletionUpdate.completed u then Some now else None)
              db Hmatch) as (i & d & _ & _ & _ & Hcount & _).
  destruct (update_one u _ db) as [db' matched_count].
  cbn [fst snd] in *. subst matched_count. reflexivity.
Qed.




(** ** The handlers at concrete requests *)

Example valid_date_strings :
  valid_date_string "2026-07-01" = true
  /\ valid_date_string "2024-02-29" = true
  /\ valid_date_string "2026-02-29" = false
  /\ valid_date_string "invalid-date" = false.
Proof. repeat split. Qed.

Example sample_db_weeks :
  map WeekSchedule.week_start sample_db = ["2026-06-22"; "2026-06-29"].
Proof. reflexivity. Qed.

Lemma complete_task_touches_one_task_witness :
  has_match sample_update sample_db
  /\ fst (complete_task sample_update sample_now sample_db)
     = Ok ("Tarea actualizada correctamente", true)
  /\ exists i j d' t',
       nth_error (snd (complete_task sample_update sample_now sample_db)) i
       = Some d'
       /\ nth_error (WeekSchedule.tasks d') j = Some t'
       /\ task_matches sample_update t'
       /\ PersonTask.limpieza_completada t' = true
       /\ PersonTask.completed_at t' = Some sample_now.
Proof.
  assert (Hmatch : has_match sample_update sample_db)
    by (apply has_match_spec; vm_compute; reflexivity).
  split; [exact Hmatch|].
  destruct (complete_task_touches_one_task sample_update sample_now
              sample_db Hmatch)
    as (i & d & j & t & d' & t' & _ & _ & _ & _ & Ht & _ & Hres & _ & Hd'
        & _ & _ & Ht' & _ & _ & Hkey & Hdone & _).
  split; [exact Hres|].
  exists i, j, d', t'. split; [exact Hd'|]. split; [exact Ht'|].
  split; [unfold task_matches in *; congruence|].
  apply Hdone. reflexivity.
Defined.


Example invalid_date_is_not_found :
  post_complete_task invalid_date_body sample_now sample_db
  = (Raise (HTTPException 404 "Tarea no encontrada"), sample_db).
Proof. reflexivity. Qed.


(** * Further properties of the code *)

(** ** The date helpers *)

Lemma last_monday_is_monday :
  Date.weekday LAST_MONDAY = 0 /\ Date.isoformat LAST_MONDAY = "9999-12-27"
  /\ LAST_MONDAY + 4 = Date.MAXORDINAL.
Proof. repeat split. Qed.

(** X1. For every date, [get_monday_of_week] returns, without raising, a
    Monday on or at most six days before that date, and it returns a Monday
    as it is. *)
Theorem get_monday_of_week_is_monday (date : Z) :
  valid_date date ->
  exists monday,
    get_monday_of_week date = Ok monday
    /\ Date.weekday monday = 0
    /\ monday <= date < monday + 7
    /\ valid_date monday
    /\ get_monday_of_week monday = Ok monday.
Proof.
  intros Hvalid. exists (date - Date.weekday date).
  pose proof (weekday_range date) as Hw.
  pose proof (monday_of_week_positive date (proj1 Hvalid)) as Hpos.
  pose proof (weekday_of_monday date) as Hmon.
  assert (Hvm : valid_date (date - Date.weekday date))
    by (unfold valid_date in *; lia).
  split; [apply get_monday_of_week_valid; exact Hvalid|].
  split; [exact Hmon|]. split; [lia|]. split; [exact Hvm|].
  rewrite (get_monday_of_week_valid _ Hvm), Hmon. f_equal. lia.
Qed.

Lemma get_monday_of_week_is_monday_witness :
  valid_date 739797
  /\ exists monday,
       get_monday_of_week 739797 = Ok monday
       /\ Date.weekday monday = 0
       /\ monday <= 739797 < monday + 7
       /\ valid_date monday
       /\ get_monday_of_week monday = Ok monday.
Proof.
  assert (Hvalid : valid_date 739797)
    by (unfold valid_date, Date.MAXORDINAL; lia).
  split; [exact Hvalid|].
  exact (get_monday_of_week_is_monday 739797 Hvalid).
Defined.

Lemma weekday_plus (d k : Z) :
  Date.weekday d = 0 -> 0 <= k < 7 -> Date.weekday (d + k) = k.
Proof.
  unfold Date.weekday. intros Hd Hk.
  Z.div_mod_to_equations. lia.
Qed.

(** X2. [get_sunday_of_week] returns the Sunday that closes the week of the
    date: a day of weekday 6, on or at most six days after the date, in the
    same week.  It raises [OverflowError] exactly for the dates from Monday
    9999-12-27 on, whose Sunday is past the last date. *)
Theorem get_sunday_of_week_is_sunday (date : Z) :
  valid_date date ->
  (date < LAST_MONDAY ->
   exists sunday,
     get_sunday_of_week date = Ok sunday
     /\ Date.weekday sunday = 6
     /\ date <= sunday < date + 7
     /\ get_monday_of_week sunday = get_monday_of_week date)
  /\ (LAST_MONDAY <= date -> get_sunday_of_week date = Raise OverflowError).
Proof.
  intros Hvalid.
  pose proof (weekday_range date) as Hw.
  pose proof (monday_of_week_positive date (proj1 Hvalid)) as Hpos.
  pose proof (weekday_of_monday date) as Hmon.
  unfold get_sunday_of_week.
  rewrite (get_monday_of_week_valid _ Hvalid). cbn [rbind].
  unfold valid_date, Date.MAXORDINAL, LAST_MONDAY in *.
  assert (Hlast : (date < 3652055 -> date - Date.weekday date <= 3652048)
                  /\ (3652055 <= date ->
                      3652055 <= date - Date.weekday date)).
  { unfold Date.weekday. Z.div_mod_to_equations. lia. }
  split.
  - intros Hlt. exists (date - Date.weekday date + 6).
    split; [apply add_in_range; unfold Date.MAXORDINAL; lia|].
    split; [apply weekday_plus; [exact Hmon | lia]|].
    split; [lia|].
    rewrite !get_monday_of_week_valid
      by (unfold valid_date, Date.MAXORDINAL; lia).
    rewrite (weekday_plus _ 6 Hmon) by lia. f_equal. lia.
  - intros Hge. unfold Date.add.
    replace (date - Date.weekday date + 6 <=? Date.MAXORDINAL) with false
      by (symmetry; apply Z.leb_gt; unfold Date.MAXORDINAL; lia).
    rewrite andb_false_r. reflexivity.
Qed.

Lemma get_sunday_of_week_is_sunday_witness :
  valid_date 739797
  /\ (739797 < LAST_MONDAY ->
      exists sunday,
        get_sunday_of_week 739797 = Ok sunday
        /\ Date.weekday sunday = 6
        /\ 739797 <= sunday < 739797 + 7
        /\ get_monday_of_week sunday = get_monday_of_week 739797)
  /\ (LAST_MONDAY <= 739797 ->
      get_sunday_of_week 739797 = Raise OverflowError).
Proof.
  assert (Hvalid : valid_date 739797)
    by (unfold valid_date, Date.MAXORDINAL; lia).
  split; [exact Hvalid|].
  exact (get_sunday_of_week_is_sunday 739797 Hvalid).
Defined.

(** X3. [get_next_monday] returns the first Monday strictly after today: a
    Monday, after today and at most seven days after it, with no Monday in
    between.  It raises [OverflowError] exactly for the dates from Monday
    9999-12-27 on. *)
Theorem get_next_monday_is_next_monday (today : Z) :
  valid_date today ->
  (today < LAST_MONDAY ->
   exists start,
     get_next_monday today = Ok start
     /\ Date.weekday start = 0
     /\ today < start <= today + 7
     /\ forall d, today < d < start -> Date.weekday d <> 0)
  /\ (LAST_MONDAY <= today -> get_next_monday today = Raise OverflowError).
Proof.
  intros Hvalid.
  pose proof (weekday_range today) as Hw.
  pose proof (monday_of_week_positive today (proj1 Hvalid)) as Hpos.
  pose proof (weekday_of_monday today) as Hmon.
  assert (Hlast : (today < 3652055 -> today - Date.weekday today <= 3652048)
                  /\ (3652055 <= today ->
                      3652055 <= today - Date.weekday today)).
  { unfold Date.weekday. Z.div_mod_to_equations. lia. }
  rewrite get_next_monday_add.
  unfold valid_date, Date.MAXORDINAL, LAST_MONDAY in *.
  split.
  - intros Hlt. exists (today + (7 - Date.weekday today)).
    split; [apply add_in_range; unfold Date.MAXORDINAL; lia|].
    split.
    { replace (today + (7 - Date.weekday today))
        with (today - Date.weekday today + 7) by lia.
      rewrite weekday_step. exact Hmon. }
    split; [lia|].
    intros d Hd.
    replace d with (today - Date.weekday today
                    + (d - (today - Date.weekday today))) by lia.
    rewrite weekday_plus; [lia | exact Hmon | lia].
  - intros Hge. unfold Date.add.
    replace (today + (7 - Date.weekday today) <=? Date.MAXORDINAL) with false
      by (symmetry; apply Z.leb_gt; unfold Date.MAXORDINAL; lia).
    rewrite andb_false_r. reflexivity.
Qed.

Lemma get_next_monday_is_next_monday_witness :
  valid_date 739797
  /\ (739797 < LAST_MONDAY ->
      exists start,
        get_next_monday 739797 = Ok start
        /\ Date.weekday start = 0
        /\ 739797 < start <= 739797 + 7
        /\ forall d, 739797 < d < start -> Date.weekday d <> 0)
  /\ (LAST_MONDAY <= 739797 ->
      get_next_monday 739797 = Raise OverflowError).
Proof.
  assert (Hvalid : valid_date 739797)
    by (unfold valid_date, Date.MAXORDINAL; lia).
  split; [exact Hvalid|].
  exact (get_next_monday_is_next_monday 739797 Hvalid).
Defined.

(** ** The order of dates and of their ISO strings *)

Lemma month_day_step_checked (leapyear : bool) :
  all_from (month_day_step_ok leapyear)
    (Z.to_nat (364 + Z.b2z leapyear)) 0 = true.
Proof. destruct leapyear; vm_compute; reflexivity. Qed.

Lemma lex_lt_trans (p q r : Z * Z) :
  lex_lt p q = true -> lex_lt q r = true -> lex_lt p r = true.
Proof.
  unfold lex_lt.
  rewrite !orb_true_iff, !andb_true_iff, !Z.ltb_lt, !Z.eqb_eq. lia.
Qed.

(** Within a year, a later day has a later (month, day). *)
Lemma month_day_increasing (leapyear : bool) (r r' : Z) :
  0 <= r < r' -> r' < 365 + Z.b2z leapyear ->
  lex_lt (month_day leapyear r) (month_day leapyear r') = true.
Proof.
  intros [Hr Hlt] Hr'.
  assert (Hstep : forall k, 0 <= k < 364 + Z.b2z leapyear ->
            lex_lt (month_day leapyear k) (month_day leapyear (k + 1)) = true).
  { intros k Hk.
    apply (all_below _ _ (month_day_step_checked leapyear) k Hk). }
  assert (Hgap : forall g : nat,
            r + 1 + Z.of_nat g < 365 + Z.b2z leapyear ->
            lex_lt (month_day leapyear r)
              (month_day leapyear (r + 1 + Z.of_nat g)) = true).
  { induction g as [|g IH]; intros Hg.
    - rewrite Z.add_0_r. apply Hstep. lia.
    - apply (lex_lt_trans _ (month_day leapyear (r + 1 + Z.of_nat g))).
      + apply IH. lia.
      + replace (r + 1 + Z.of_nat (S g)) with (r + 1 + Z.of_nat g + 1) by lia.
        apply Hstep. lia. }
  replace r' with (r + 1 + Z.of_nat (Z.to_nat (r' - r - 1))) by lia.
  apply Hgap. lia.
Qed.

(** The fields of a date, by its year and its offset in that year. *)
Lemma ord2ymd_in_year (n : Z) :
  valid_date n ->
  let offset := n - 1 - Date.days_before_year (Date.year n) in
  0 <= offset < 365 + Z.b2z (Date.is_leap (Date.year n))
  /\ (Date.month n, Date.day n)
     = month_day (Date.is_leap (Date.year n)) offset.
Proof.
  intros Hv. cbv zeta. unfold Date.year, Date.month, Date.day.
  rewrite ord2ymd_parts. cbv zeta.
  pose proof (ord2ymd_decompose n Hv) as Hd. cbv zeta in Hd.
  set (n400 := (n - 1) / 146097) in *.
  set (r400 := (n - 1) mod 146097) in *.
  set (n100 := r400 / 36524) in *.
  set (r100 := r400 mod 36524) in *.
  set (n4 := r100 / 1461) in *.
  set (r4 := r100 mod 1461) in *.
  set (n1 := r4 / 365) in *.
  set (r1 := r4 mod 365) in *.
  destruct Hd as (H400 & H100 & H4 & H1 & Hr1 & Hn & Hc & Hy & _ & _).
  clearbody r1 n1. clearbody r4 n4. clearbody r100 n100.
  clearbody r400 n400.
  destruct ((n1 =? 4) || (n100 =? 4)) eqn:Hspecial.
  - cbn [fst snd]. apply orb_true_iff in Hspecial.
    rewrite !Z.eqb_eq in Hspecial.
    set (y := n400 * 400 + 1 + (n100 * 100 + n4 * 4 + n1) - 1).
    assert (Hleap : Date.is_leap y = true).
    { unfold Date.is_leap. apply andb_true_iff. split.
      - apply Z.eqb_eq. subst y. Z.div_mod_to_equations. lia.
      - destruct (Z.eqb_spec (y mod 100) 0) as [H0 | H0]; [|reflexivity].
        apply Z.eqb_eq. subst y. Z.div_mod_to_equations. lia. }
    rewrite Hleap.
    assert (Hoff : n - 1 - Date.days_before_year y = 365).
    { unfold Date.days_before_year. cbv zeta. subst y.
      Z.div_mod_to_equations. lia. }
    rewrite Hoff. split; [cbn; lia | reflexivity].
  - apply orb_false_iff in Hspecial. rewrite !Z.eqb_neq in Hspecial.
    cbn [fst snd].
    rewrite is_leap_parts, days_before_year_parts by lia.
    replace (n - 1 - (146097 * n400 + 36524 * n100 + 1461 * n4 + 365 * n1))
      with r1 by lia.
    split.
    + destruct ((n1 =? 3) && (negb (n4 =? 24) || (n100 =? 3))); cbn; lia.
    + destruct (month_day _ r1); reflexivity.
Qed.

Lemma days_before_year_succ (y : Z) :
  Date.days_before_year (y + 1)
  = Date.days_before_year y + 365 + Z.b2z (Date.is_leap y).
Proof.
  unfold Date.days_before_year, Date.is_leap. cbv zeta.
  repeat match goal with
         | |- context [?a =? ?b] => destruct (Z.eqb_spec a b)
         end; cbn [andb orb negb Z.b2z];
    Z.div_mod_to_equations; lia.
Qed.

Lemma days_before_year_monotone (y y' : Z) :
  y <= y' -> Date.days_before_year y <= Date.days_before_year y'.
Proof.
  intros Hle. unfold Date.days_before_year. cbv zeta.
  Z.div_mod_to_equations. lia.
Qed.

(** A later date has a later (year, month, day). *)
Lemma ord2ymd_increasing (a b : Z) :
  valid_date a -> valid_date b -> a < b ->
  Date.year a < Date.year b
  \/ (Date.year a = Date.year b
      /\ lex_lt (Date.month a, Date.day a) (Date.month b, Date.day b) = true).
Proof.
  intros Ha Hb Hlt.
  destruct (ord2ymd_in_year a Ha) as [Hoa Hma].
  destruct (ord2ymd_in_year b Hb) as [Hob Hmb].
  destruct (Z.lt_trichotomy (Date.year a) (Date.year b)) as [Hy | [Hy | Hy]].
  - left. exact Hy.
  - right. split; [exact Hy|]. rewrite Hma, Hmb, Hy in *.
    apply month_day_increasing; lia.
  - exfalso.
    pose proof (days_before_year_succ (Date.year b)) as Hsucc.
    pose proof (days_before_year_monotone (Date.year b + 1) (Date.year a)
                  ltac:(lia)) as Hmono.
    lia.
Qed.

Lemma string_append_assoc (a b c : string) :
  ((a ++ b) ++ c)%string = (a ++ b ++ c)%string.
Proof.
  induction a as [|x a IH]; cbn; [reflexivity | rewrite IH; reflexivity].
Qed.

Lemma string_length_append (a b : string) :
  String.length (a ++ b) = (String.length a + String.length b)%nat.
Proof.
  induction a as [|x a IH]; cbn; [reflexivity | rewrite IH; reflexivity].
Qed.

(** Strings that start with pieces of one length compare by those pieces
    first. *)
Lemma compare_append (s1 s2 t1 t2 : string) :
  String.length s1 = String.length s2 ->
  String.compare (s1 ++ t1) (s2 ++ t2)
  = match String.compare s1 s2 with
    | Eq => String.compare t1 t2
    | c => c
    end.
Proof.
  revert s2. induction s1 as [|x s1 IH]; intros [|y s2] Hlen;
    try discriminate; cbn [String.append String.compare].
  - reflexivity.
  - injection Hlen as Hlen.
    destruct (Ascii.compare x y); [apply IH; exact Hlen | reflexivity..].
Qed.

Lemma format_2_compare_checked :
  all_from format_2_compare_ok (Z.to_nat 100) 0 = true.
Proof. vm_compute. reflexivity. Qed.

Lemma format_4_split_checked :
  all_from format_4_split_ok (Z.to_nat 10000) 0 = true.
Proof. vm_compute. reflexivity. Qed.

Lemma format_2_compare (a b : Z) :
  0 <= a < 100 -> 0 <= b < 100 ->
  String.compare (Date.format_0d 2 a) (Date.format_0d 2 b) = (a ?= b).
Proof.
  intros Ha Hb.
  pose proof (all_below _ _ format_2_compare_checked a Ha) as Hrow.
  pose proof (all_below _ _ Hrow b Hb) as Hcell. cbv beta in Hcell.
  destruct (String.compare _ _), (a ?= b); (reflexivity || discriminate).
Qed.

Lemma format_2_length (a : Z) :
  0 <= a < 100 -> String.length (Date.format_0d 2 a) = 2%nat.
Proof.
  intros Ha. pose proof (all_below _ _ format_2_checked a Ha) as H.
  unfold format_ok in H. apply andb_true_iff in H. destruct H as [_ H].
  apply Nat.eqb_eq. exact H.
Qed.

Lemma format_4_split (y : Z) :
  0 <= y < 10000 ->
  Date.format_0d 4 y
  = (Date.format_0d 2 (y / 100) ++ Date.format_0d 2 (y mod 100))%string.
Proof.
  intros Hy. apply String.eqb_eq.
  apply (all_below _ _ format_4_split_checked y Hy).
Qed.

(** [isoformat] is increasing: the binary order of the strings is the
    order of the dates. *)
Lemma isoformat_increasing (a b : Z) :
  valid_date a -> valid_date b -> a < b ->
  String.compare (Date.isoformat a) (Date.isoformat b) = Lt.
Proof.
  intros Ha Hb Hlt.
  destruct (ord2ymd_ymd2ord a Ha) as (_ & Hya & Hma & Hda).
  destruct (ord2ymd_ymd2ord b Hb) as (_ & Hyb & Hmb & Hdb).
  pose proof (ord2ymd_increasing a b Ha Hb Hlt) as Hord.
  unfold lex_lt in Hord. cbn [fst snd] in Hord.
  rewrite orb_true_iff, andb_true_iff, !Z.ltb_lt, Z.eqb_eq in Hord.
  unfold Date.isoformat.
  set (ya := Date.year a) in *. set (yb := Date.year b) in *.
  set (ma := Date.month a) in *. set (mb := Date.month b) in *.
  set (da := Date.day a) in *. set (db := Date.day b) in *.
  clearbody ya yb ma mb da db.
  assert (Hha : 0 <= ya / 100 < 100) by (Z.div_mod_to_equations; lia).
  assert (Hhb : 0 <= yb / 100 < 100) by (Z.div_mod_to_equations; lia).
  assert (Hla : 0 <= ya mod 100 < 100) by (Z.div_mod_to_equations; lia).
  assert (Hlb : 0 <= yb mod 100 < 100) by (Z.div_mod_to_equations; lia).
  rewrite (format_4_split ya), (format_4_split yb) by lia.
  rewrite !string_append_assoc.
  rewrite compare_append by (rewrite !format_2_length; auto).
  rewrite compare_append by (rewrite !format_2_length; auto).
  cbn [String.append String.compare].
  change (Ascii.compare "-" "-") with Eq. cbv iota.
  rewrite compare_append by (rewrite !format_2_length; auto with zarith).
  cbn [String.append String.compare].
  change (Ascii.compare "-" "-") with Eq. cbv iota.
  rewrite !format_2_compare by lia.
  destruct (Z.compare_spec (ya / 100) (yb / 100)) as [Hh | Hh | Hh];
    [|reflexivity|exfalso; Z.div_mod_to_equations; lia].
  destruct (Z.compare_spec (ya mod 100) (yb mod 100)) as [Hl | Hl | Hl];
    [|reflexivity|exfalso; Z.div_mod_to_equations; lia].
  assert (ya = yb) by (Z.div_mod_to_equations; lia).
  destruct (Z.compare_spec ma mb) as [Hm | Hm | Hm];
    [|reflexivity|exfalso; lia].
  destruct (Z.compare_spec da db) as [Hd | Hd | Hd];
    [exfalso; lia|reflexivity|exfalso; lia].
Qed.

Lemma isoformat_ltb (a b : Z) :
  valid_date a -> valid_date b -> a < b ->
  String.ltb (Date.isoformat a) (Date.isoformat b) = true.
Proof.
  intros Ha Hb Hlt. unfold String.ltb.
  rewrite (isoformat_increasing a b Ha Hb Hlt). reflexivity.
Qed.

Lemma isoformat_leb (a b : Z) :
  valid_date a -> valid_date b -> a <= b ->
  String.leb (Date.isoformat a) (Date.isoformat b) = true.
Proof.
  intros Ha Hb Hle. destruct (Z.eq_dec a b) as [-> | Hne].
  - apply string_leb_refl.
  - unfold String.leb.
    rewrite (isoformat_increasing a b Ha Hb ltac:(lia)). reflexivity.
Qed.

Lemma string_compare_refl (a : string) : String.compare a a = Eq.
Proof.
  pose proof (String.compare_antisym a a) as H.
  destruct (String.compare a a); [reflexivity | discriminate..].
Qed.

Lemma string_ltb_leb (a b : string) :
  String.ltb a b = true -> String.leb a b = true.
Proof.
  unfold String.ltb, String.leb.
  destruct (String.compare a b); (reflexivity || discriminate).
Qed.

Lemma strongly_sorted_by_index {A : Type} (R : A -> A -> Prop) (l : list A) :
  (forall i j a b, (i < j)%nat -> nth_error l i = Some a ->
     nth_error l j = Some b -> R a b) ->
  StronglySorted R l.
Proof.
  induction l as [|x l IH]; intros H; constructor.
  - apply IH. intros i j a b Hij Ha Hb.
    apply (H (S i) (S j) a b); [lia | exact Ha | exact Hb].
  - apply Forall_forall. intros y Hy.
    destruct (In_nth_error _ _ Hy) as [j Hj].
    apply (H 0%nat (S j) x y); [lia | reflexivity | exact Hj].
Qed.

Lemma week_start_lt_NoDup (l : list WeekSchedule.t) :
  StronglySorted week_start_lt l -> NoDup (map WeekSchedule.week_start l).
Proof.
  induction 1 as [|x l Hsorted IH Hall]; cbn [map]; constructor.
  - intros Hin. apply in_map_iff in Hin. destruct Hin as (y & Heq & Hy).
    rewrite Forall_forall in Hall. specialize (Hall y Hy).
    unfold week_start_lt, String.ltb in Hall.
    rewrite Heq, string_compare_refl in Hall. discriminate.
  - exact IH.
Qed.

(** ** The generated rota *)

Section RotaProperties.

Variable uuid4 : nat -> string.

(** The loop draws seven identifiers a week, in order. *)
Lemma weeks_loop_trace (current_date week_counter : Z)
  (schedules : list WeekSchedule.t) (n : nat) :
  1 <= current_date ->
  exists l,
    weeks_loop uuid4 current_date week_counter schedules n
    = Ok (schedules ++ l, (n + 7 * List.length l)%nat)
    /\ forall i s, nth_error l i = Some s ->
         week_body uuid4 (current_date + 7 * Z.of_nat i)
           (week_counter + Z.of_nat i) (n + 7 * i)%nat
         = Ok (s, (n + 7 * i + 7)%nat).
Proof.
  funelim (weeks_loop uuid4 current_date week_counter schedules n);
    intros Hpos.
  - exists []. rewrite app_nil_r. cbn [List.length].
    rewrite Nat.mul_0_r, Nat.add_0_r. split; [reflexivity|].
    intros [|i] s; discriminate.
  - pose proof (proj1 (Z.leb_le _ _) Hle) as Hle'.
    destruct (week_body_in_horizon uuid4 _ week_counter n (conj Hpos Hle'))
      as [s Hs].
    congruence.
  - pose proof (proj1 (Z.leb_le _ _) Hle) as Hle'.
    destruct (add_inv _ _ _ Hnext) as [Hn _].
    destruct (week_body_in_horizon uuid4 _ week_counter n (conj Hpos Hle'))
      as [s0 Hs0].
    assert (n' = (n + 7)%nat /\ schedule = s0) as [-> ->]
      by (split; congruence).
    match goal with
    | IH : 1 <= _ -> exists _, _ |- _ =>
        destruct (IH ltac:(lia)) as (l & Hrun & Hnth)
    end.
    rewrite Hn in Hnth.
    exists (s0 :: l). split.
    + rewrite Hrun, <- app_assoc. cbn [List.length app]. do 2 f_equal. lia.
    + intros [|i] s Hi.
      * injection Hi as <-.
        rewrite Z.mul_0_r, !Z.add_0_r, Nat.mul_0_r, !Nat.add_0_r.
        exact Hs0.
      * specialize (Hnth i s Hi).
        replace (current_date + 7 * Z.of_nat (S i))
          with (current_date + 7 + 7 * Z.of_nat i) by lia.
        replace (week_counter + Z.of_nat (S i))
          with (week_counter + 1 + Z.of_nat i) by lia.
        replace (n + 7 * S i)%nat with (n + 7 + 7 * i)%nat by lia.
        exact Hnth.
  - pose proof (proj1 (Z.leb_le _ _) Hle) as Hle'.
    rewrite end_date_ordinal in Hle'.
    assert (Hr : Date.add current_date 7 = Ok (current_date + 7))
      by (apply add_in_range; unfold Date.MAXORDINAL; lia).
    congruence.
Qed.

(** A run of the generator, with the identifiers each schedule gets. *)
Lemma generate_all_schedules_trace (today start : Z) (n : nat) :
  get_next_monday today = Ok start ->
  exists l,
    generate_all_schedules uuid4 today n
    = Ok (l, (n + 7 * List.length l)%nat)
    /\ List.length l = Z.to_nat ((end_date - start + 7) / 7)
    /\ forall i s, nth_error l i = Some s ->
         s = week_record uuid4 (start + 7 * Z.of_nat i)
               (start + 7 * Z.of_nat i + 6) (Z.of_nat i) (n + 7 * i)%nat.
Proof.
  intros Hstart.
  destruct (get_next_monday_inv _ _ Hstart) as (_ & Hmon & Hpos & _).
  destruct (weeks_loop_trace start 0 [] n ltac:(lia)) as (l & Hrun & Hnth).
  destruct (generate_all_schedules_run uuid4 _ _ n Hstart)
    as (l0 & n0 & Hrun0 & Hlen & _).
  assert (Hgen : generate_all_schedules uuid4 today n
                 = Ok (l, (n + 7 * List.length l)%nat)).
  { unfold generate_all_schedules, bind, lift. rewrite Hstart. exact Hrun. }
  assert (l0 = l) as -> by congruence.
  exists l. split; [exact Hgen|]. split; [exact Hlen|].
  intros i s Hi. specialize (Hnth i s Hi).
  assert (Hin : start + 7 * Z.of_nat i <= end_date).
  { apply index_in_horizon. rewrite <- Hlen.
    apply nth_error_Some. congruence. }
  rewrite end_date_ordinal in Hin.
  rewrite (week_body_run uuid4 (start + 7 * Z.of_nat i) (0 + Z.of_nat i)
             (start + 7 * Z.of_nat i + 6)) in Hnth.
  - injection Hnth as <-. reflexivity.
  - rewrite get_sunday_of_week_monday by (unfold Date.MAXORDINAL; lia).
    rewrite weekday_weeks, Hmon. f_equal. lia.
Qed.

Lemma ids_of_week_record (monday sunday week_counter : Z) (m : nat) :
  ids_of (week_record uuid4 monday sunday week_counter m)
  = uuid4 (m + 6)%nat :: map uuid4 (seq m 6).
Proof.
  unfold ids_of, week_record, born.
  replace (m + 1)%nat with (S m) by lia.
  replace (m + 2)%nat with (S (S m)) by lia.
  replace (m + 3)%nat with (S (S (S m))) by lia.
  replace (m + 4)%nat with (S (S (S (S m)))) by lia.
  replace (m + 5)%nat with (S (S (S (S (S m))))) by lia.
  destruct (week_counter mod 2 =? 0); reflexivity.
Qed.

Lemma ids_of_week_records (l : list WeekSchedule.t) (n : nat) :
  (forall i s, nth_error l i = Some s ->
     exists monday sunday week_counter,
       s = week_record uuid4 monday sunday week_counter (n + 7 * i)%nat) ->
  Permutation (flat_map ids_of l) (map uuid4 (seq n (7 * List.length l))).
Proof.
  revert n. induction l as [|s l IH]; intros n Hrec; [constructor|].
  destruct (Hrec 0%nat s eq_refl) as (monday & sunday & week_counter & Hs).
  rewrite Nat.mul_0_r, Nat.add_0_r in Hs.
  cbn [flat_map List.length]. rewrite Hs at 1. rewrite ids_of_week_record.
  replace (7 * S (List.length l))%nat with (7 + 7 * List.length l)%nat by lia.
  rewrite seq_app, map_app.
  apply Permutation_app.
  - replace (seq n 7) with (seq n 6 ++ [(n + 6)%nat])
      by (symmetry; apply (seq_S 6 n)).
    rewrite map_app. cbn [map]. apply Permutation_cons_append.
  - apply IH. intros i s' Hi.
    destruct (Hrec (S i) s' Hi) as (mon & sun & wc & Hs').
    exists mon, sun, wc. rewrite Hs'. f_equal. lia.
Qed.

(** X4. A run of the generator draws seven identifiers a week and uses
    each of them exactly once: the identifiers of the schedules and of
    their tasks are, up to order, the draws from the [n]-th on. *)
Theorem generated_ids_are_the_draws (today : Z) (n n' : nat)
  (l : list WeekSchedule.t) :
  generate_all_schedules uuid4 today n = Ok (l, n') ->
  n' = (n + 7 * List.length l)%nat
  /\ Permutation (flat_map ids_of l) (map uuid4 (seq n (7 * List.length l))).
Proof.
  intros Hgen.
  destruct (generate_all_schedules_inv uuid4 _ _ _ _ Hgen)
    as (start & Hstart & _).
  destruct (generate_all_schedules_trace today start n Hstart)
    as (l0 & Hrun & _ & Hnth).
  rewrite Hrun in Hgen. injection Hgen as -> <-.
  split; [reflexivity|].
  apply ids_of_week_records. intros i s Hi. rewrite (Hnth i s Hi). eauto.
Qed.

Lemma generated_week_start_valid (today start : Z) (n n' : nat)
  (l : list WeekSchedule.t) (i : nat) (s : WeekSchedule.t) :
  generate_all_schedules uuid4 today n = Ok (l, n') ->
  get_next_monday today = Ok start ->
  nth_error l i = Some s ->
  WeekSchedule.week_start s = Date.isoformat (start + 7 * Z.of_nat i)
  /\ start + 7 * Z.of_nat i <= end_date
  /\ valid_date (start + 7 * Z.of_nat i).
Proof.
  intros Hgen Hstart Hi.
  destruct (generate_all_schedules_inv uuid4 _ _ _ _ Hgen)
    as (start' & Hstart' & Hlen & Hnth).
  assert (start' = start) as -> by congruence.
  destruct (Hnth i s Hi) as [m ->].
  destruct (get_next_monday_inv _ _ Hstart) as (_ & _ & Hrange).
  assert (Hin : start + 7 * Z.of_nat i <= end_date).
  { apply index_in_horizon. rewrite <- Hlen.
    apply nth_error_Some. congruence. }
  split; [reflexivity|]. split; [exact Hin|].
  rewrite end_date_ordinal in Hin.
  unfold valid_date, Date.MAXORDINAL. lia.
Qed.

(** X5. The schedule of index [i] is that of the Monday [start + 7 i]: a
    Monday after today and on or before the end date, the week ending on
    the Sunday six days later. *)
Theorem generated_weeks_are_mondays_in_horizon (today start : Z) (n n' : nat)
  (l : list WeekSchedule.t) (i : nat) (s : WeekSchedule.t) :
  generate_all_schedules uuid4 today n = Ok (l, n') ->
  get_next_monday today = Ok start ->
  nth_error l i = Some s ->
  let monday := start + 7 * Z.of_nat i in
  WeekSchedule.week_start s = Date.isoformat monday
  /\ Date.weekday monday = 0
  /\ Date.weekday (monday + 6) = 6
  /\ today < monday <= end_date
  /\ valid_date monday.
Proof.
  intros Hgen Hstart Hi monday.
  destruct (generated_week_start_valid _ _ _ _ _ _ _ Hgen Hstart Hi)
    as (Hws & Hin & Hvalid).
  destruct (get_next_monday_inv _ _ Hstart) as (Heq & Hmon & Hrange).
  pose proof (weekday_range today) as Hw.
  assert (Hwd : Date.weekday monday = 0)
    by (unfold monday; rewrite weekday_weeks; exact Hmon).
  split; [exact Hws|]. split; [exact Hwd|].
  split; [apply weekday_plus; [exact Hwd | lia]|].
  split; [subst monday; lia | exact Hvalid].
Qed.

Lemma generated_sorted_by_week_start (today : Z) (n n' : nat)
  (l : list WeekSchedule.t) :
  generate_all_schedules uuid4 today n = Ok (l, n') ->
  StronglySorted week_start_lt l.
Proof.
  intros Hgen.
  apply strongly_sorted_by_index. intros i j a b Hij Ha Hb.
  destruct (generate_all_schedules_inv uuid4 _ _ _ _ Hgen)
    as (start & Hstart & _).
  destruct (generated_week_start_valid _ _ _ _ _ _ _ Hgen Hstart Ha)
    as (Hwa & _ & Hva).
  destruct (generated_week_start_valid _ _ _ _ _ _ _ Hgen Hstart Hb)
    as (Hwb & _ & Hvb).
  unfold week_start_lt. rewrite Hwa, Hwb.
  apply isoformat_ltb; [exact Hva | exact Hvb | lia].
Qed.

(** X6. The week-starts of the generated schedules increase strictly, in
    the order of strings that the store sorts by; in particular no two
    schedules have the same [week_start]. *)
Theorem generated_week_starts_increase (today : Z) (n n' : nat)
  (l : list WeekSchedule.t) :
  generate_all_schedules uuid4 today n = Ok (l, n') ->
  StronglySorted week_start_lt l
  /\ NoDup (map WeekSchedule.week_start l).
Proof.
  intros Hgen.
  pose proof (generated_sorted_by_week_start _ _ _ _ Hgen) as Hsorted.
  split; [exact Hsorted|]. apply week_start_lt_NoDup. exact Hsorted.
Qed.

(** X7. The main areas swap every week: in the schedule of index [i], Joan
    and Mery have the kitchen when [i] is even and the living room when it
    is odd, Paco and Belen the other one. *)
Theorem main_areas_follow_week_parity (today : Z) (n n' : nat)
  (l : list WeekSchedule.t) (i : nat) (s : WeekSchedule.t) :
  generate_all_schedules uuid4 today n = Ok (l, n') ->
  nth_error l i = Some s ->
  WeekSchedule.joan_area s = (if Nat.even i then COCINA else SALON_PASILLO)
  /\ WeekSchedule.mery_area s = (if Nat.even i then COCINA else SALON_PASILLO)
  /\ WeekSchedule.paco_area s = (if Nat.even i then SALON_PASILLO else COCINA)
  /\ WeekSchedule.belen_area s
     = (if Nat.even i then SALON_PASILLO else COCINA).
Proof.
  intros Hgen Hi.
  destruct (generate_all_schedules_inv uuid4 _ _ _ _ Hgen)
    as (start & _ & _ & Hnth).
  destruct (Hnth i s Hi) as [m ->].
  unfold week_record. cbn [WeekSchedule.joan_area WeekSchedule.mery_area
    WeekSchedule.paco_area WeekSchedule.belen_area].
  rewrite counter_parity. repeat split.
Qed.

(** X8. Every generated week has exactly six tasks: one main cleaning for
    each of the four people, and one cleaning of each of the two
    bathrooms. *)
Theorem six_tasks_a_week (today : Z) (n n' : nat)
  (l : list WeekSchedule.t) (s : WeekSchedule.t) :
  generate_all_schedules uuid4 today n = Ok (l, n') -> In s l ->
  List.length (WeekSchedule.tasks s) = 6%nat
  /\ (forall p,
        List.length (filter (is_main_task_of p) (WeekSchedule.tasks s))
        = 1%nat)
  /\ List.length (filter (is_task_at BANO_JOAN_MERY) (WeekSchedule.tasks s))
     = 1%nat
  /\ List.length (filter (is_task_at BANO_PACO_BELEN) (WeekSchedule.tasks s))
     = 1%nat.
Proof.
  intros Hgen Hin.
  destruct (generated_is_week_record uuid4 _ _ _ _ _ Hgen Hin)
    as (monday & week_counter & m & ->).
  unfold week_record.
  destruct (week_counter mod 2 =? 0);
    (split; [reflexivity|]); (split; [intros []; reflexivity|]);
    split; reflexivity.
Qed.

Lemma generated_is_fresh (today : Z) (n n' : nat)
  (l : list WeekSchedule.t) :
  generate_all_schedules uuid4 today n = Ok (l, n') -> fresh l.
Proof.
  intros Hgen d t Hd Ht.
  destruct (generated_is_week_record uuid4 _ _ _ _ _ Hgen Hd)
    as (monday & week_counter & m & ->).
  unfold week_record in Ht.
  destruct (week_counter mod 2 =? 0); cbn in Ht;
    repeat destruct Ht as [<- | Ht]; try contradiction;
    split; reflexivity.
Qed.

End RotaProperties.

(** ** Requests and their bodies *)

(** X9. Validation undoes the encoding of a request: the body that carries
    the values of an update validates to that update, and the route then
    runs the handler on it. *)
Theorem validate_body_of (u : TaskCompletionUpdate.t) (now : string)
  (db : collection) :
  validate (body_of u) = Some u
  /\ post_complete_task (body_of u) now db = complete_task u now db.
Proof.
  assert (Hv : validate (body_of u) = Some u).
  { destruct u as [ws p a t c]. unfold validate, body_of.
    cbn [RequestBody.person RequestBody.area RequestBody.task_type
         RequestBody.week_start RequestBody.completed
         TaskCompletionUpdate.person TaskCompletionUpdate.area
         TaskCompletionUpdate.task_type TaskCompletionUpdate.week_start
         TaskCompletionUpdate.completed].
    destruct p, a, t; reflexivity. }
  split; [exact Hv|]. unfold post_complete_task. rewrite Hv. reflexivity.
Qed.

(** ** Successive updates *)

Lemma with_completed_self (u : TaskCompletionUpdate.t) :
  with_completed u (TaskCompletionUpdate.completed u) = u.
Proof. destruct u; reflexivity. Qed.

Lemma elemMatch_same_key (u : TaskCompletionUpdate.t) (t t' : PersonTask.t) :
  task_key t' = task_key t -> elemMatch u t' = elemMatch u t.
Proof.
  unfold task_key, elemMatch. intros [= -> -> ->]. reflexivity.
Qed.

(** The positional update keeps the keys of the tasks, at every position. *)
Lemma set_positional_keys (u : TaskCompletionUpdate.t)
  (completed_at : option string) (tasks : list PersonTask.t) :
  map task_key (set_positional u completed_at tasks) = map task_key tasks
  /\ map PersonTask.id (set_positional u completed_at tasks)
     = map PersonTask.id tasks.
Proof.
  induction tasks as [|t tasks [IHk IHi]]; [split; reflexivity|].
  cbn [set_positional]. destruct (elemMatch u t); cbn [map].
  - split; reflexivity.
  - rewrite IHk, IHi. split; reflexivity.
Qed.

Lemma existsb_same_keys (u : TaskCompletionUpdate.t)
  (tasks tasks' : list PersonTask.t) :
  map task_key tasks' = map task_key tasks ->
  existsb (elemMatch u) tasks' = existsb (elemMatch u) tasks.
Proof.
  revert tasks'. induction tasks as [|t tasks IH]; intros [|t' tasks'] H;
    try discriminate; [reflexivity|].
  cbn [map] in H.
  assert (Hk : task_key t' = task_key t) by congruence.
  assert (Hrest : map task_key tasks' = map task_key tasks) by congruence.
  cbn [existsb].
  rewrite (elemMatch_same_key u t t' Hk), (IH tasks' Hrest). reflexivity.
Qed.

Lemma filter_query_update_query (u u' : TaskCompletionUpdate.t)
  (completed_at : option string) (d : WeekSchedule.t) :
  filter_query u' (update_query u completed_at d) = filter_query u' d.
Proof.
  unfold filter_query, update_query.
  cbn [WeekSchedule.week_start WeekSchedule.tasks]. f_equal.
  apply existsb_same_keys. apply set_positional_keys.
Qed.

Lemma set_positional_again (u : TaskCompletionUpdate.t) (b1 b2 : bool)
  (c1 c2 : option string) (tasks : list PersonTask.t) :
  set_positional (with_completed u b2) c2
    (set_positional (with_completed u b1) c1 tasks)
  = set_positional (with_completed u b2) c2 tasks.
Proof.
  induction tasks as [|t tasks IH]; [reflexivity|].
  cbn [set_positional].
  change (elemMatch (with_completed u b1) t) with (elemMatch u t).
  change (elemMatch (with_completed u b2) t) with (elemMatch u t).
  destruct (elemMatch u t) eqn:Hm; cbn [set_positional].
  - match goal with
    | |- context [elemMatch ?a ?b] =>
        change (elemMatch a b) with (elemMatch u t)
    end.
    rewrite Hm. reflexivity.
  - change (elemMatch (with_completed u b2) t) with (elemMatch u t).
    rewrite Hm, IH. reflexivity.
Qed.

Lemma update_one_again (u : TaskCompletionUpdate.t) (b1 b2 : bool)
  (c1 c2 : option string) (db : collection) :
  update_one (with_completed u b2) c2
    (fst (update_one (with_completed u b1) c1 db))
  = update_one (with_completed u b2) c2 db.
Proof.
  induction db as [|d db IH]; [reflexivity|].
  cbn [update_one].
  change (filter_query (with_completed u b1) d) with (filter_query u d).
  change (filter_query (with_completed u b2) d) with (filter_query u d).
  destruct (filter_query u d) eqn:Hm.
  - cbn [fst update_one].
    rewrite filter_query_update_query.
    change (filter_query (with_completed u b2) d) with (filter_query u d).
    rewrite Hm. f_equal. f_equal.
    unfold update_query.
    cbn [WeekSchedule.id WeekSchedule.week_start WeekSchedule.week_end
         WeekSchedule.week_number WeekSchedule.year WeekSchedule.joan_area
         WeekSchedule.mery_area WeekSchedule.paco_area
         WeekSchedule.belen_area WeekSchedule.joan_bano
         WeekSchedule.mery_bano WeekSchedule.paco_bano
         WeekSchedule.belen_bano WeekSchedule.tasks].
    rewrite set_positional_again. reflexivity.
  - destruct (update_one (with_completed u b1) c1 db) as [db1 m1].
    cbn [fst] in *. cbn [update_one].
    change (filter_query (with_completed u b2) d) with (filter_query u d).
    rewrite Hm, IH. reflexivity.
Qed.

Lemma complete_task_snd (u : TaskCompletionUpdate.t) (now : string)
  (db : collection) :
  snd (complete_task u now db)
  = fst (update_one u
           (if TaskCompletionUpdate.completed u then Some now else None) db).
Proof.
  unfold complete_task. destruct (update_one u _ db). reflexivity.
Qed.

Lemma complete_task_again (u : TaskCompletionUpdate.t) (b1 b2 : bool)
  (now1 now2 : string) (db : collection) :
  complete_task (with_completed u b2) now2
    (snd (complete_task (with_completed u b1) now1 db))
  = complete_task (with_completed u b2) now2 db.
Proof.
  rewrite complete_task_snd. unfold complete_task.
  rewrite update_one_again. reflexivity.
Qed.

(** X10. The last request for a task wins: handling a request after
    another one for the same task gives the answer and the collection that
    it gives alone.  In particular a request handled twice is as handled
    once. *)
Theorem complete_task_last_request_wins (u : TaskCompletionUpdate.t)
  (b1 b2 : bool) (now1 now2 now : string) (db : collection) :
  complete_task (with_completed u b2) now2
    (snd (complete_task (with_completed u b1) now1 db))
  = complete_task (with_completed u b2) now2 db
  /\ complete_task u now (snd (complete_task u now db))
     = complete_task u now db.
Proof.
  split; [apply complete_task_again|].
  rewrite <- (with_completed_self u) at 1 2 3.
  apply complete_task_again.
Qed.

Lemma set_positional_fresh (u : TaskCompletionUpdate.t)
  (tasks : list PersonTask.t) :
  (forall t, In t tasks ->
     PersonTask.limpieza_completada t = false
     /\ PersonTask.completed_at t = None) ->
  set_positional (with_completed u false) None tasks = tasks.
Proof.
  induction tasks as [|t tasks IH]; intros Hfresh; [reflexivity|].
  cbn [set_positional]. destruct (elemMatch _ t).
  - destruct (Hfresh t (or_introl eq_refl)) as [Hflag Hat].
    destruct t; cbn in *. subst. reflexivity.
  - rewrite IH; [reflexivity|]. intros t' Ht'. apply Hfresh. right. exact Ht'.
Qed.

Lemma update_one_fresh (u : TaskCompletionUpdate.t) (db : collection) :
  fresh db -> fst (update_one (with_completed u false) None db) = db.
Proof.
  induction db as [|d db IH]; intros Hfresh; [reflexivity|].
  cbn [update_one]. destruct (filter_query _ d).
  - cbn [fst]. f_equal. unfold update_query.
    rewrite set_positional_fresh.
    + destruct d; reflexivity.
    + intros t Ht. apply (Hfresh d t); [left; reflexivity | exact Ht].
  - destruct (update_one _ None db) as [db' m] eqn:Hup. cbn [fst] in *.
    f_equal. apply IH. intros d' t Hd' Ht.
    apply (Hfresh d' t); [right; exact Hd' | exact Ht].
Qed.

(** X11. Marking a task of a collection with no completed task complete
    and then incomplete gives the collection back as it was, although the
    first step did change it. *)
Theorem uncomplete_restores_fresh (u : TaskCompletionUpdate.t)
  (now1 now2 : string) (db : collection) :
  fresh db -> has_match u db ->
  snd (complete_task (with_completed u true) now1 db) <> db
  /\ snd (complete_task (with_completed u false) now2
            (snd (complete_task (with_completed u true) now1 db))) = db.
Proof.
  intros Hfresh Hmatch. split.
  - rewrite complete_task_snd.
    cbn [with_completed TaskCompletionUpdate.completed].
    assert (Hex : existsb (filter_query (with_completed u true)) db = true)
      by (apply has_match_spec in Hmatch; exact Hmatch).
    destruct (update_one_hit (with_completed u true) (Some now1) db Hex)
      as (i & d & Hi & Hd & _ & _ & _ & Hnew).
    intros Heq. rewrite Heq, Hi in Hnew. injection Hnew as Hnew.
    assert (Hext : existsb (elemMatch (with_completed u true))
                     (WeekSchedule.tasks d) = true).
    { unfold filter_query in Hd. apply andb_true_iff in Hd. apply Hd. }
    destruct (set_positional_spec (with_completed u true) (Some now1) _ Hext)
      as (j & t & Hj & _ & _ & _ & Htnew).
    rewrite Hnew in Hj at 1. unfold update_query in Hj.
    cbn [WeekSchedule.tasks] in Hj. rewrite Htnew in Hj.
    injection Hj as Hj.
    destruct (Hfresh d t) as [Hflag _].
    + apply nth_error_In with (n := i). exact Hi.
    + apply nth_error_In with (n := j).
      rewrite Hnew at 1. unfold update_query. cbn [WeekSchedule.tasks].
      rewrite Htnew. f_equal. exact Hj.
    + rewrite <- Hj in Hflag. discriminate Hflag.
  - rewrite complete_task_again, complete_task_snd.
    apply update_one_fresh. exact Hfresh.
Qed.

Lemma ids_of_update_query (u : TaskCompletionUpdate.t)
  (completed_at : option string) (d : WeekSchedule.t) :
  ids_of (update_query u completed_at d) = ids_of d.
Proof.
  unfold ids_of, update_query. cbn [WeekSchedule.id WeekSchedule.tasks].
  f_equal. apply set_positional_keys.
Qed.

Lemma update_one_keeps (u : TaskCompletionUpdate.t)
  (completed_at : option string) (db : collection) :
  map WeekSchedule.week_start (fst (update_one u completed_at db))
  = map WeekSchedule.week_start db
  /\ flat_map ids_of (fst (update_one u completed_at db))
     = flat_map ids_of db
  /\ forall u', existsb (filter_query u') (fst (update_one u completed_at db))
                = existsb (filter_query u') db.
Proof.
  induction db as [|d db (IHw & IHi & IHm)]; [repeat split|].
  cbn [update_one]. destruct (filter_query u d).
  - cbn [fst map flat_map existsb].
    rewrite ids_of_update_query. repeat split.
    intros u'. rewrite filter_query_update_query. reflexivity.
  - destruct (update_one u completed_at db) as [db' m].
    cbn [fst map flat_map existsb] in *.
    rewrite IHw, IHi. repeat split. intros u'. rewrite IHm. reflexivity.
Qed.

(** X12. A completion request never adds, removes or moves a schedule or a
    task and never touches an identifier or a [week_start]: the sequence
    of week-starts and the identifiers are as before, and every request
    finds a task afterwards exactly if it found one before. *)
Theorem complete_task_keeps_the_rest (u : TaskCompletionUpdate.t)
  (now : string) (db : collection) :
  map WeekSchedule.week_start (snd (complete_task u now db))
  = map WeekSchedule.week_start db
  /\ flat_map ids_of (snd (complete_task u now db)) = flat_map ids_of db
  /\ forall u', has_match u' (snd (complete_task u now db))
                <-> has_match u' db.
Proof.
  rewrite complete_task_snd.
  destruct (update_one_keeps u
              (if TaskCompletionUpdate.completed u then Some now else None)
              db) as (Hw & Hi & Hm).
  split; [exact Hw|]. split; [exact Hi|].
  intros u'. rewrite <- !has_match_spec, Hm. reflexivity.
Qed.

(** ** Deleting and listing *)

(** X13. [delete_all_schedules] reports how many schedules there were and
    leaves nothing: afterwards the current week and every completion
    request are answered 404 and the list of schedules is empty. *)
Theorem delete_all_leaves_nothing (db : collection) :
  fst (delete_all_schedules db)
  = Ok ("Se eliminaron " ++ str_int (Z.of_nat (List.length db))
        ++ " planificaciones")%string
  /\ snd (delete_all_schedules db) = []
  /\ (forall today, valid_date today ->
        status_code (get_current_week today (snd (delete_all_schedules db)))
        = 404)
  /\ (forall u now,
        status_code
          (fst (complete_task u now (snd (delete_all_schedules db)))) = 404)
  /\ get_all_schedules (snd (delete_all_schedules db)) = Ok [].
Proof.
  unfold delete_all_schedules, delete_many. cbn [fst snd except_Exception_500].
  split; [reflexivity|]. split; [reflexivity|]. split; [|split].
  - intros today Hvalid. unfold get_current_week.
    rewrite (get_monday_of_week_valid _ Hvalid). reflexivity.
  - intros u now. reflexivity.
  - reflexivity.
Qed.

Lemma insert_week_start_perm (d : WeekSchedule.t) (l : list WeekSchedule.t) :
  Permutation (insert_week_start d l) (d :: l).
Proof.
  induction l as [|x l IH]; cbn [insert_week_start]; [reflexivity|].
  destruct (String.leb _ _); [reflexivity|].
  rewrite IH. apply perm_swap.
Qed.

Lemma insert_week_start_sorted (d : WeekSchedule.t)
  (l : list WeekSchedule.t) :
  StronglySorted week_start_le l ->
  StronglySorted week_start_le (insert_week_start d l).
Proof.
  induction 1 as [|x l Hsorted IH Hall]; cbn [insert_week_start].
  - repeat constructor.
  - destruct (String.leb (WeekSchedule.week_start d)
                (WeekSchedule.week_start x)) eqn:Hle.
    + constructor; [constructor; assumption|].
      constructor; [exact Hle|].
      apply Forall_impl with (P := week_start_le x); [|exact Hall].
      intros y Hy. unfold week_start_le in *.
      apply (string_leb_trans _ _ _ Hle Hy).
    + constructor; [exact IH|].
      apply Forall_forall. intros y Hy.
      apply (Permutation_in _ (insert_week_start_perm d l)) in Hy.
      destruct Hy as [<- | Hy].
      * unfold week_start_le.
        destruct (String.leb_total (WeekSchedule.week_start x)
                    (WeekSchedule.week_start d)); congruence.
      * rewrite Forall_forall in Hall. apply Hall. exact Hy.
Qed.

(** X14. [get_all_schedules] never fails and returns every schedule of the
    collection exactly once, in ascending order of [week_start]. *)
Theorem get_all_schedules_sorted (db : collection) :
  exists l,
    get_all_schedules db = Ok l
    /\ Permutation l db
    /\ StronglySorted week_start_le l.
Proof.
  exists (sort_week_start db). split; [reflexivity|].
  unfold sort_week_start.
  induction db as [|d db [IHp IHs]]; cbn [fold_right].
  - split; constructor.
  - split.
    + rewrite insert_week_start_perm. constructor. exact IHp.
    + apply insert_week_start_sorted. exact IHs.
Qed.

Lemma hd_insert_week_start (d : WeekSchedule.t) (l : list WeekSchedule.t) :
  hd_error (insert_week_start d l)
  = match hd_error l with
    | None => Some d
    | Some m =>
        if String.leb (WeekSchedule.week_start d) (WeekSchedule.week_start m)
        then Some d else Some m
    end.
Proof.
  destruct l as [|x l]; cbn [insert_week_start hd_error]; [reflexivity|].
  destruct (String.leb _ _); reflexivity.
Qed.

(** The document the sorted lookup finds is the first of the sorted list. *)
Lemma find_one_sort_is_head (db : collection) :
  find_one_sort_week_start db = hd_error (sort_week_start db).
Proof.
  induction db as [|d db IH]; [reflexivity|].
  cbn [find_one_sort_week_start sort_week_start fold_right].
  fold (sort_week_start db). rewrite hd_insert_week_start, <- IH.
  reflexivity.
Qed.

(** X15. When no schedule starts on the Monday of the current week,
    [get_current_week] answers with the first schedule of the list that
    [get_all_schedules] returns, and with 404 if that list is empty. *)
Theorem current_week_falls_back_to_first_listed (today : Z) (db : collection)
  (l : list WeekSchedule.t) :
  valid_date today ->
  (forall d, In d db ->
     WeekSchedule.week_start d
     <> Date.isoformat (today - Date.weekday today)) ->
  get_all_schedules db = Ok l ->
  get_current_week today db
  = match l with
    | d :: _ => Ok d
    | [] => Raise (HTTPException 404 "No hay planificaciones disponibles")
    end.
Proof.
  intros Hvalid Hnone Hlist. injection Hlist as <-.
  unfold get_current_week.
  rewrite (get_monday_of_week_valid _ Hvalid). cbn [rbind].
  unfold find_one_week_start.
  destruct (find _ db) as [d|] eqn:Hfind.
  - apply find_some in Hfind. destruct Hfind as [Hin Hws].
    apply String.eqb_eq in Hws. destruct (Hnone d Hin Hws).
  - rewrite find_one_sort_is_head.
    destruct (sort_week_start db); reflexivity.
Qed.

Lemma current_week_falls_back_to_first_listed_witness :
  valid_date 739700
  /\ (forall d, In d sample_db ->
        WeekSchedule.week_start d
        <> Date.isoformat (739700 - Date.weekday 739700))
  /\ get_all_schedules sample_db = Ok sample_db
  /\ exists d, get_current_week 739700 sample_db = Ok d
               /\ WeekSchedule.week_start d = "2026-06-22".
Proof.
  assert (Hvalid : valid_date 739700)
    by (unfold valid_date, Date.MAXORDINAL; lia).
  assert (Hnone : forall d, In d sample_db ->
            WeekSchedule.week_start d
            <> Date.isoformat (739700 - Date.weekday 739700)).
  { intros d [<- | [<- | []]]; vm_compute; discriminate. }
  assert (Hlist : get_all_schedules sample_db = Ok sample_db)
    by (vm_compute; reflexivity).
  split; [exact Hvalid|]. split; [exact Hnone|]. split; [exact Hlist|].
  rewrite (current_week_falls_back_to_first_listed 739700 sample_db
             sample_db Hvalid Hnone Hlist).
  eexists. split; reflexivity.
Defined.

Lemma sorted_lt_le (l : list WeekSchedule.t) :
  StronglySorted week_start_lt l -> StronglySorted week_start_le l.
Proof.
  induction 1 as [|x l Hsorted IH Hall]; constructor; [exact IH|].
  apply Forall_impl with (P := week_start_lt x); [|exact Hall].
  intros y. apply string_ltb_leb.
Qed.

Lemma sort_week_start_sorted (l : list WeekSchedule.t) :
  StronglySorted week_start_le l -> sort_week_start l = l.
Proof.
  induction 1 as [|x l Hsorted IH Hall]; [reflexivity|].
  unfold sort_week_start in *. cbn [fold_right]. rewrite IH.
  destruct l as [|y l]; [reflexivity|]. cbn [insert_week_start].
  apply Forall_inv in Hall. unfold week_start_le in Hall.
  rewrite Hall. reflexivity.
Qed.

Section StoreOfGenerated.

Variable uuid4 : nat -> string.

(** X16. Whatever the order of the Mondays and of their strings, the
    schedules come out of the generator as [get_all_schedules] lists them:
    listing a generated collection returns it unchanged. *)
Theorem generated_is_listed_as_generated (today : Z) (n n' : nat)
  (l : list WeekSchedule.t) :
  generate_all_schedules uuid4 today n = Ok (l, n') ->
  get_all_schedules l = Ok l.
Proof.
  intros Hgen. unfold get_all_schedules. cbn [except_Exception_500].
  f_equal. apply sort_week_start_sorted, sorted_lt_le.
  apply (generated_sorted_by_week_start uuid4 _ _ _ _ Hgen).
Qed.

Lemma next_monday_in_horizon (today : Z) :
  valid_date today ->
  (today < LAST_WEEK ->
   exists start, get_next_monday today = Ok start /\ start <= LAST_WEEK
     /\ (end_date - start + 7) / 7 = (LAST_WEEK - start) / 7 + 1
     /\ start + 7 * ((LAST_WEEK - start) / 7) = LAST_WEEK)
  /\ (LAST_WEEK <= today -> today < LAST_MONDAY ->
      exists start, get_next_monday today = Ok start /\ end_date < start).
Proof.
  intros Hvalid.
  pose proof (weekday_range today) as Hw.
  pose proof (monday_of_week_positive today (proj1 Hvalid)) as Hpos.
  set (start := today + (7 - Date.weekday today)).
  assert (Harith :
    (today < 739796 -> start <= 739796
       /\ (739798 - start + 7) / 7 = (739796 - start) / 7 + 1
       /\ start + 7 * ((739796 - start) / 7) = 739796)
    /\ (739796 <= today -> 739798 < start)
    /\ (today < 3652055 -> start <= 3652055)).
  { subst start. unfold Date.weekday. Z.div_mod_to_equations. lia. }
  destruct Harith as (Hin & Hout & Hlast).
  rewrite get_next_monday_add. rewrite end_date_ordinal. fold start.
  unfold LAST_WEEK, LAST_MONDAY, valid_date, Date.MAXORDINAL in *.
  split.
  - intros Hlt. exists start.
    split; [apply add_in_range; unfold Date.MAXORDINAL; lia|].
    apply Hin. exact Hlt.
  - intros Hge Hlt. exists start.
    split; [apply add_in_range; unfold Date.MAXORDINAL; lia|].
    apply Hout. exact Hge.
Qed.

(** X17. Until Sunday 2026-06-28, [create_schedules] succeeds and replaces
    the collection, whatever it held, by the generated schedules: it
    reports their number, the first week-start, which is next Monday, and
    the last one, which is always 2026-06-29. *)
Theorem create_schedules_replaces_collection (today : Z) (n : nat)
  (db : collection) :
  valid_date today -> today < LAST_WEEK ->
  exists start l,
    get_next_monday today = Ok start
    /\ generate_all_schedules uuid4 today n
       = Ok (l, (n + 7 * List.length l)%nat)
    /\ Z.of_nat (List.length l) = (LAST_WEEK - start) / 7 + 1
    /\ create_schedules uuid4 today n db
       = (Ok (Created.mk
                ("Se crearon " ++ str_int (Z.of_nat (List.length l))
                 ++ " planificaciones semanales con baños incluidos")%string
                (Z.of_nat (List.length l))
                (Some (Date.isoformat start))
                (Some (Date.isoformat LAST_WEEK))),
          l, (n + 7 * List.length l)%nat).
Proof.
  intros Hvalid Hlt.
  destruct (proj1 (next_monday_in_horizon today Hvalid) Hlt)
    as (start & Hstart & Hle & Hq & Hlast).
  destruct (generate_all_schedules_trace uuid4 today start n Hstart)
    as (l & Hrun & Hlen & Hnth).
  exists start, l. split; [exact Hstart|]. split; [exact Hrun|].
  assert (Hpos : 0 <= (LAST_WEEK - start) / 7)
    by (apply Z.div_pos; lia).
  assert (Hcount : Z.of_nat (List.length l) = (LAST_WEEK - start) / 7 + 1)
    by (rewrite Hlen, Hq; lia).
  split; [exact Hcount|].
  assert (Hget : forall i, (i < List.length l)%nat ->
            exists s, nth_error l i = Some s).
  { intros i Hi. destruct (nth_error l i) as [s|] eqn:Hs; [eauto|].
    apply nth_error_None in Hs. lia. }
  assert (Hfirst : first_week_start l = Some (Date.isoformat start)).
  { unfold first_week_start. destruct (Hget 0%nat ltac:(lia)) as [s Hs].
    replace (hd_error l) with (nth_error l 0) by (destruct l; reflexivity).
    rewrite Hs, (Hnth _ s Hs). unfold week_record.
    cbn [option_map WeekSchedule.week_start]. do 2 f_equal. lia. }
  assert (Hlastw : last_week_start l = Some (Date.isoformat LAST_WEEK)).
  { unfold last_week_start.
    destruct (Hget (List.length l - 1)%nat ltac:(lia)) as [s Hs].
    rewrite Hs, (Hnth _ s Hs). unfold week_record.
    cbn [option_map WeekSchedule.week_start]. do 2 f_equal. lia. }
  assert (Hins : insert_many l [] = Done (l, Z.of_nat (List.length l))).
  { destruct l; [cbn [List.length] in Hcount; lia | reflexivity]. }
  unfold create_schedules, delete_many.
  rewrite Hrun, Hins, Hfirst, Hlastw. reflexivity.
Qed.

(** X18. From Monday 2026-06-29 on nothing is left to generate, and
    [create_schedules] fails: it answers 500 after it has emptied the
    collection, which stays empty. *)
Theorem create_schedules_with_nothing_left (today : Z) (n : nat)
  (db : collection) :
  valid_date today -> LAST_WEEK <= today ->
  exists detail,
    create_schedules uuid4 today n db
    = (Raise (HTTPException 500 detail), [], n).
Proof.
  intros Hvalid Hge. unfold create_schedules, delete_many.
  destruct (Z_lt_le_dec today LAST_MONDAY) as [Hlt | Hlast].
  - destruct (proj2 (next_monday_in_horizon today Hvalid) Hge Hlt)
      as (start & Hstart & Hpast).
    destruct (generate_all_schedules_trace uuid4 today start n Hstart)
      as (l & Hrun & Hlen & _).
    assert (l = []) as ->.
    { assert (Hq : (end_date - start + 7) / 7 <= 0)
        by (apply Z.lt_succ_r, Z.div_lt_upper_bound; lia).
      destruct l; [reflexivity|]. cbn [List.length] in Hlen. lia. }
    rewrite Hrun. cbn [insert_many List.length].
    rewrite Nat.mul_0_r, Nat.add_0_r. eexists. reflexivity.
  - rewrite generate_all_schedules_overflow; [eexists; reflexivity|].
    unfold LAST_MONDAY, Date.MAXORDINAL in *.
    assert (3652055 <= today - Date.weekday today)
      by (unfold Date.weekday; Z.div_mod_to_equations; lia).
    lia.
Qed.

Lemma find_by_week_start_unique (l : list WeekSchedule.t) (k : nat)
  (s : WeekSchedule.t) :
  NoDup (map WeekSchedule.week_start l) ->
  nth_error l k = Some s ->
  find_one_week_start (WeekSchedule.week_start s) l = Some s.
Proof.
  unfold find_one_week_start. revert k.
  induction l as [|d l IH]; intros [|k] Hnd Hk; try discriminate.
  - injection Hk as ->. cbn [find]. rewrite String.eqb_refl. reflexivity.
  - cbn [map] in Hnd. inversion Hnd as [|? ? Hnotin Hnd']; subst.
    cbn [find nth_error] in *.
    destruct (String.eqb_spec (WeekSchedule.week_start d)
                (WeekSchedule.week_start s)) as [Heq | Hne].
    + exfalso. apply Hnotin. rewrite Heq. apply in_map.
      apply nth_error_In with (n := k). exact Hk.
    + apply (IH k Hnd' Hk).
Qed.

Lemma find_one_sort_sorted (l : list WeekSchedule.t) :
  StronglySorted week_start_le l ->
  find_one_sort_week_start l = hd_error l.
Proof.
  intros Hsorted.
  rewrite find_one_sort_is_head, (sort_week_start_sorted l Hsorted).
  reflexivity.
Qed.

(** X19. Over a generated collection, [get_current_week] returns the
    schedule of the week that contains the current date when that week was
    generated; before the first generated week, and also after the last
    one, it returns the first generated schedule. *)
Theorem current_week_of_generated (today start today' : Z) (n n' : nat)
  (l : list WeekSchedule.t) :
  generate_all_schedules uuid4 today n = Ok (l, n') ->
  get_next_monday today = Ok start ->
  start <= end_date ->
  valid_date today' ->
  let monday' := today' - Date.weekday today' in
  (start <= monday' <= end_date ->
   exists s, get_current_week today' l = Ok s
     /\ nth_error l (Z.to_nat ((monday' - start) / 7)) = Some s
     /\ WeekSchedule.week_start s = Date.isoformat monday')
  /\ (monday' < start \/ end_date < monday' ->
      exists s, get_current_week today' l = Ok s
        /\ nth_error l 0 = Some s
        /\ WeekSchedule.week_start s = Date.isoformat start).
Proof.
  intros Hgen Hstart Hle Hvalid monday'.
  destruct (generate_all_schedules_inv uuid4 _ _ _ _ Hgen)
    as (start' & Hstart' & Hlen & _).
  assert (start' = start) as -> by congruence.
  destruct (get_next_monday_inv _ _ Hstart) as (_ & Hmon & Hrange).
  pose proof (generated_sorted_by_week_start uuid4 _ _ _ _ Hgen) as Hsorted.
  pose proof (weekday_of_monday today') as Hmon'. fold monday' in Hmon'.
  pose proof (weekday_range today') as Hw.
  pose proof (monday_of_week_positive today' (proj1 Hvalid)) as Hpos.
  assert (Hvm : valid_date monday')
    by (unfold valid_date in *; subst monday'; lia).
  unfold get_current_week.
  rewrite (get_monday_of_week_valid _ Hvalid). cbn [rbind]. fold monday'.
  assert (Hget : forall i, (i < List.length l)%nat ->
            exists s, nth_error l i = Some s).
  { intros i Hi. destruct (nth_error l i) as [s|] eqn:Hs; [eauto|].
    apply nth_error_None in Hs. lia. }
  split.
  - intros [Hlo Hhi].
    set (k := Z.to_nat ((monday' - start) / 7)).
    assert (Hk : monday' = start + 7 * Z.of_nat k).
    { subst k. unfold Date.weekday in Hmon, Hmon'.
      rewrite Z2Nat.id by (apply Z.div_pos; lia).
      Z.div_mod_to_equations. lia. }
    assert (Hkl : (k < List.length l)%nat).
    { rewrite Hlen.
      assert (Z.of_nat k + 1 <= (end_date - start + 7) / 7)
        by (apply Z.div_le_lower_bound; lia).
      lia. }
    destruct (Hget k Hkl) as [s Hs]. exists s.
    destruct (generated_week_start_valid uuid4 _ _ _ _ _ _ _
                Hgen Hstart Hs) as (Hws & _).
    rewrite <- Hk in Hws. rewrite <- Hws.
    rewrite (find_by_week_start_unique l k s
               (week_start_lt_NoDup l Hsorted) Hs).
    cbn [except_500]. auto.
  - intros Hout.
    assert (Hnone : find_one_week_start (Date.isoformat monday') l = None).
    { unfold find_one_week_start.
      destruct (find _ l) as [d|] eqn:Hfind; [exfalso|reflexivity].
      apply find_some in Hfind. destruct Hfind as [Hin Hws].
      apply String.eqb_eq in Hws.
      destruct (In_nth_error _ _ Hin) as [i Hi].
      destruct (generated_week_start_valid uuid4 _ _ _ _ _ _ _
                  Hgen Hstart Hi) as (Hwd & Hin' & Hvd).
      rewrite Hwd in Hws. apply isoformat_inj in Hws; [lia | exact Hvd|].
      exact Hvm. }
    rewrite Hnone, (find_one_sort_sorted l (sorted_lt_le l Hsorted)).
    assert (Hne : (0 < List.length l)%nat)
      by (rewrite Hlen, (weeks_in_horizon start Hle); lia).
    destruct (Hget 0%nat Hne) as [s Hs]. exists s.
    destruct (generated_week_start_valid uuid4 _ _ _ _ _ _ _
                Hgen Hstart Hs) as (Hws & _).
    destruct l as [|s0 l0]; [discriminate|].
    cbn [hd_error nth_error except_500] in *. injection Hs as ->.
    split; [reflexivity|]. split; [reflexivity|].
    rewrite Hws. f_equal. lia.
Qed.

End StoreOfGenerated.

(** ** The current week after an update *)

Lemma find_transfer (w : string) (db db' : collection) :
  Forall2 (fun x y => WeekSchedule.week_start x = WeekSchedule.week_start y)
    db db' ->
  match find_one_week_start w db, find_one_week_start w db' with
  | Some a, Some b =>
      exists k, nth_error db k = Some a /\ nth_error db' k = Some b
        /\ WeekSchedule.week_start a = w
        /\ forall j x, (j < k)%nat -> nth_error db j = Some x ->
             WeekSchedule.week_start x <> WeekSchedule.week_start a
  | None, None => True
  | _, _ => False
  end.
Proof.
  unfold find_one_week_start.
  induction 1 as [|x y l l' Hxy Hrest IH]; cbn [find]; [exact I|].
  rewrite <- Hxy.
  destruct (String.eqb_spec (WeekSchedule.week_start x) w) as [Hw | Hw].
  - exists 0%nat. repeat split; [exact Hw|]. intros j x0 Hj. lia.
  - destruct (find _ l) as [a|], (find _ l') as [b|]; try exact IH.
    destruct IH as (k & Ha & Hb & Hwa & Hfirst).
    exists (S k). repeat split; try assumption.
    intros [|j] x0 Hj Hx0.
    + injection Hx0 as <-. congruence.
    + apply (Hfirst j x0); [lia | exact Hx0].
Qed.

Lemma sort_transfer (db db' : collection) :
  Forall2 (fun x y => WeekSchedule.week_start x = WeekSchedule.week_start y)
    db db' ->
  match find_one_sort_week_start db, find_one_sort_week_start db' with
  | Some a, Some b =>
      exists k, nth_error db k = Some a /\ nth_error db' k = Some b
        /\ WeekSchedule.week_start a = WeekSchedule.week_start b
        /\ forall j x, (j < k)%nat -> nth_error db j = Some x ->
             WeekSchedule.week_start x <> WeekSchedule.week_start a
  | None, None => True
  | _, _ => False
  end.
Proof.
  induction 1 as [|x y l l' Hxy Hrest IH];
    cbn [find_one_sort_week_start]; [exact I|].
  destruct (find_one_sort_week_start l) as [a|],
           (find_one_sort_week_start l') as [b|]; try contradiction.
  - destruct IH as (k & Ha & Hb & Hab & Hfirst).
    rewrite <- Hxy, <- Hab.
    destruct (String.leb (WeekSchedule.week_start x)
                (WeekSchedule.week_start a)) eqn:Hle.
    + exists 0%nat. repeat split; [exact Hxy|]. intros j x0 Hj. lia.
    + exists (S k). repeat split; try assumption.
      intros [|j] x0 Hj Hx0.
      * injection Hx0 as <-. intros Heq. rewrite Heq in Hle.
        rewrite string_leb_refl in Hle. discriminate.
      * apply (Hfirst j x0); [lia | exact Hx0].
  - exists 0%nat. repeat split; [exact Hxy|]. intros j x0 Hj. lia.
Qed.

(** What [get_current_week] picks depends on the week-starts only, and it
    is the first schedule with its [week_start]. *)
Lemma get_current_week_transfer (today : Z) (db db' : collection)
  (d : WeekSchedule.t) :
  Forall2 (fun x y => WeekSchedule.week_start x = WeekSchedule.week_start y)
    db db' ->
  get_current_week today db = Ok d ->
  exists k d',
    nth_error db k = Some d /\ nth_error db' k = Some d'
    /\ get_current_week today db' = Ok d'
    /\ forall j x, (j < k)%nat -> nth_error db j = Some x ->
         WeekSchedule.week_start x <> WeekSchedule.week_start d.
Proof.
  intros Hrel. unfold get_current_week.
  destruct (get_monday_of_week today) as [monday|e]; cbn [rbind];
    [|destruct e; discriminate].
  pose proof (find_transfer (Date.isoformat monday) db db' Hrel) as Hfind.
  pose proof (sort_transfer db db' Hrel) as Hsort.
  destruct (find_one_week_start _ db) as [a|],
           (find_one_week_start _ db') as [b|]; try contradiction.
  - cbn [except_500]. intros [= ->].
    destruct Hfind as (k & Ha & Hb & _ & Hfirst).
    exists k, b. auto.
  - destruct (find_one_sort_week_start db) as [a|],
             (find_one_sort_week_start db') as [b|]; try contradiction;
      cbn [except_500]; [|discriminate].
    intros [= ->]. destruct Hsort as (k & Ha & Hb & _ & Hfirst).
    exists k, b. auto.
Qed.

Lemma update_one_week_starts (u : TaskCompletionUpdate.t)
  (completed_at : option string) (db : collection) :
  Forall2 (fun x y => WeekSchedule.week_start x = WeekSchedule.week_start y)
    db (fst (update_one u completed_at db)).
Proof.
  induction db as [|d db IH]; [constructor|].
  cbn [update_one]. destruct (filter_query u d).
  - cbn [fst]. constructor; [reflexivity|].
    clear. induction db; constructor; auto.
  - destruct (update_one u completed_at db) as [db' m]. cbn [fst] in *.
    constructor; [reflexivity | exact IH].
Qed.

(** X20. Completing a task of the schedule that [get_current_week] shows
    is seen by the next [get_current_week]: it shows the schedule of the
    same week, in which the first matching task has the requested
    completion flag and time and everything else is as before. *)
Theorem current_week_shows_completion (today : Z)
  (u : TaskCompletionUpdate.t) (now : string) (db : collection)
  (d : WeekSchedule.t) :
  get_current_week today db = Ok d ->
  schedule_matches u d ->
  exists d' j t t',
    fst (complete_task u now db)
    = Ok ("Tarea actualizada correctamente", TaskCompletionUpdate.completed u)
    /\ get_current_week today (snd (complete_task u now db)) = Ok d'
    /\ WeekSchedule.week_start d' = WeekSchedule.week_start d
    /\ WeekSchedule.id d' = WeekSchedule.id d
    /\ same_except j (WeekSchedule.tasks d) (WeekSchedule.tasks d')
    /\ nth_error (WeekSchedule.tasks d) j = Some t
    /\ task_matches u t
    /\ nth_error (WeekSchedule.tasks d') j = Some t'
    /\ task_key t' = task_key t
    /\ PersonTask.id t' = PersonTask.id t
    /\ PersonTask.limpieza_completada t' = TaskCompletionUpdate.completed u
    /\ PersonTask.completed_at t'
       = (if TaskCompletionUpdate.completed u then Some now else None).
Proof.
  intros Hcur Hmatch.
  set (completed_at :=
         if TaskCompletionUpdate.completed u then Some now else None).
  pose proof (update_one_week_starts u completed_at db) as Hrel.
  destruct (get_current_week_transfer today db _ d Hrel Hcur)
    as (k & d' & Hk & Hk' & Hcur' & Hkfirst).
  assert (Hd : filter_query u d = true)
    by (apply filter_query_spec; exact Hmatch).
  assert (Hex : existsb (filter_query u) db = true).
  { apply existsb_exists. exists d. split; [|exact Hd].
    apply nth_error_In with (n := k). exact Hk. }
  destruct (update_one_hit u completed_at db Hex)
    as (i & di & Hi & Hdi & Hifirst & _ & _ & Hnew).
  assert (i = k).
  { destruct (Nat.lt_trichotomy i k) as [Hlt | [Heq | Hgt]];
      [exfalso | exact Heq | exfalso].
    - apply (Hkfirst i di Hlt Hi).
      apply filter_query_spec in Hdi. destruct Hdi as [Hwi _].
      destruct Hmatch as [Hwd _]. congruence.
    - rewrite (Hifirst k d Hgt Hk) in Hd. discriminate. }
  subst i. assert (di = d) as -> by congruence.
  assert (d' = update_query u completed_at d) as -> by congruence.
  assert (Hext : existsb (elemMatch u) (WeekSchedule.tasks d) = true).
  { unfold filter_query in Hd. apply andb_true_iff in Hd. apply Hd. }
  destruct (set_positional_spec u completed_at _ Hext)
    as (j & t & Hj & Ht & _ & Hsame & Htnew).
  exists (update_query u completed_at d), j, t.
  eexists.
  split.
  { apply complete_task_found. apply has_match_spec. exact Hex. }
  split; [rewrite complete_task_snd; exact Hcur'|].
  split; [reflexivity|]. split; [reflexivity|].
  split; [exact Hsame|]. split; [exact Hj|].
  split; [apply elemMatch_spec; exact Ht|].
  split; [exact Htnew|].
  repeat split.
Qed.

(** ** The further properties at concrete inputs *)

Lemma sample_db_generated :
  generate_all_schedules uuid_sample 739783 0%nat = Ok (sample_db, 14%nat)
  /\ get_next_monday 739783 = Ok 739789.
Proof. split; vm_compute; reflexivity. Qed.

Lemma generated_ids_are_the_draws_witness :
  exists l n',
    generate_all_schedules uuid_sample 739783 0%nat = Ok (l, n')
    /\ n' = (0 + 7 * List.length l)%nat
    /\ Permutation (flat_map ids_of l)
         (map uuid_sample (seq 0 (7 * List.length l))).
Proof.
  eexists; eexists. split; [vm_compute; reflexivity|].
  eapply (generated_ids_are_the_draws uuid_sample 739783 0%nat).
  vm_compute; reflexivity.
Defined.

Lemma generated_weeks_are_mondays_in_horizon_witness :
  exists l n' s,
    generate_all_schedules uuid_sample 739783 0%nat = Ok (l, n')
    /\ get_next_monday 739783 = Ok 739789
    /\ nth_error l 1 = Some s
    /\ WeekSchedule.week_start s = Date.isoformat (739789 + 7 * Z.of_nat 1)
    /\ Date.weekday (739789 + 7 * Z.of_nat 1) = 0
    /\ Date.weekday (739789 + 7 * Z.of_nat 1 + 6) = 6
    /\ 739783 < 739789 + 7 * Z.of_nat 1 <= end_date
    /\ valid_date (739789 + 7 * Z.of_nat 1).
Proof.
  eexists; eexists; eexists.
  split; [vm_compute; reflexivity|]. split; [reflexivity|].
  split; [reflexivity|].
  eapply (generated_weeks_are_mondays_in_horizon uuid_sample 739783 739789
            0%nat);
    [vm_compute; reflexivity | reflexivity | reflexivity].
Defined.

Lemma generated_week_starts_increase_witness :
  exists l n',
    generate_all_schedules uuid_sample 739783 0%nat = Ok (l, n')
    /\ StronglySorted week_start_lt l
    /\ NoDup (map WeekSchedule.week_start l).
Proof.
  eexists; eexists. split; [vm_compute; reflexivity|].
  eapply (generated_week_starts_increase uuid_sample 739783 0%nat).
  vm_compute; reflexivity.
Defined.

Lemma main_areas_follow_week_parity_witness :
  exists l n' s,
    generate_all_schedules uuid_sample 739783 0%nat = Ok (l, n')
    /\ nth_error l 1 = Some s
    /\ WeekSchedule.joan_area s
       = (if Nat.even 1 then COCINA else SALON_PASILLO)
    /\ WeekSchedule.mery_area s
       = (if Nat.even 1 then COCINA else SALON_PASILLO)
    /\ WeekSchedule.paco_area s
       = (if Nat.even 1 then SALON_PASILLO else COCINA)
    /\ WeekSchedule.belen_area s
       = (if Nat.even 1 then SALON_PASILLO else COCINA).
Proof.
  eexists; eexists; eexists.
  split; [vm_compute; reflexivity|]. split; [reflexivity|].
  eapply (main_areas_follow_week_parity uuid_sample 739783 0%nat);
    [vm_compute; reflexivity | reflexivity].
Defined.

Lemma six_tasks_a_week_witness :
  exists l n' s,
    generate_all_schedules uuid_sample 739783 0%nat = Ok (l, n')
    /\ In s l
    /\ List.length (WeekSchedule.tasks s) = 6%nat
    /\ (forall p,
          List.length (filter (is_main_task_of p) (WeekSchedule.tasks s))
          = 1%nat)
    /\ List.length (filter (is_task_at BANO_JOAN_MERY) (WeekSchedule.tasks s))
       = 1%nat
    /\ List.length (filter (is_task_at BANO_PACO_BELEN)
                      (WeekSchedule.tasks s))
       = 1%nat.
Proof.
  eexists; eexists; eexists.
  split; [vm_compute; reflexivity|]. split; [left; reflexivity|].
  eapply (six_tasks_a_week uuid_sample 739783 0%nat);
    [vm_compute; reflexivity | left; reflexivity].
Defined.

Lemma uncomplete_restores_fresh_witness :
  fresh sample_db /\ has_match sample_update sample_db
  /\ snd (complete_task (with_completed sample_update true) sample_now
            sample_db) <> sample_db
  /\ snd (complete_task (with_completed sample_update false) sample_now
            (snd (complete_task (with_completed sample_update true)
                    sample_now sample_db))) = sample_db.
Proof.
  assert (Hfresh : fresh sample_db)
    by (apply (generated_is_fresh uuid_sample 739783 0%nat 14%nat);
        apply sample_db_generated).
  assert (Hmatch : has_match sample_update sample_db)
    by (apply has_match_spec; vm_compute; reflexivity).
  split; [exact Hfresh|]. split; [exact Hmatch|].
  exact (uncomplete_restores_fresh sample_update sample_now sample_now
           sample_db Hfresh Hmatch).
Defined.

Lemma generated_is_listed_as_generated_witness :
  generate_all_schedules uuid_sample 739783 0%nat = Ok (sample_db, 14%nat)
  /\ get_all_schedules sample_db = Ok sample_db.
Proof.
  split; [apply sample_db_generated|].
  apply (generated_is_listed_as_generated uuid_sample 739783 0%nat 14%nat).
  apply sample_db_generated.
Defined.

Lemma create_schedules_replaces_collection_witness :
  valid_date 739783 /\ 739783 < LAST_WEEK
  /\ exists l,
       create_schedules uuid_sample 739783 0%nat sample_db
       = (Ok (Created.mk
                ("Se crearon " ++ str_int (Z.of_nat (List.length l))
                 ++ " planificaciones semanales con baños incluidos")%string
                (Z.of_nat (List.length l))
                (Some "2026-06-22") (Some "2026-06-29")),
          l, (0 + 7 * List.length l)%nat)
       /\ List.length l = 2%nat.
Proof.
  assert (Hvalid : valid_date 739783)
    by (unfold valid_date, Date.MAXORDINAL; lia).
  assert (Hlt : 739783 < LAST_WEEK) by (unfold LAST_WEEK; lia).
  split; [exact Hvalid|]. split; [exact Hlt|].
  destruct (create_schedules_replaces_collection uuid_sample 739783 0%nat
              sample_db Hvalid Hlt)
    as (start & l & Hstart & _ & Hcount & Hcreate).
  assert (start = 739789) as -> by (vm_compute in Hstart; congruence).
  exists l. split; [exact Hcreate|].
  change ((LAST_WEEK - 739789) / 7 + 1) with 2 in Hcount. lia.
Defined.

Lemma create_schedules_with_nothing_left_witness :
  valid_date 739796 /\ LAST_WEEK <= 739796
  /\ exists detail,
       create_schedules uuid_sample 739796 0%nat sample_db
       = (Raise (HTTPException 500 detail), [], 0%nat).
Proof.
  assert (Hvalid : valid_date 739796)
    by (unfold valid_date, Date.MAXORDINAL; lia).
  assert (Hge : LAST_WEEK <= 739796) by (unfold LAST_WEEK; lia).
  split; [exact Hvalid|]. split; [exact Hge|].
  exact (create_schedules_with_nothing_left uuid_sample 739796 0%nat
           sample_db Hvalid Hge).
Defined.

Lemma current_week_of_generated_witness :
  generate_all_schedules uuid_sample 739783 0%nat = Ok (sample_db, 14%nat)
  /\ get_next_monday 739783 = Ok 739789
  /\ 739789 <= end_date
  /\ valid_date 739797
  /\ (exists s, get_current_week 739797 sample_db = Ok s
                /\ WeekSchedule.week_start s = "2026-06-29")
  /\ (exists s, get_current_week 739900 sample_db = Ok s
                /\ WeekSchedule.week_start s = "2026-06-22").
Proof.
  destruct sample_db_generated as [Hgen Hstart].
  assert (Hle : 739789 <= end_date) by (rewrite end_date_ordinal; lia).
  assert (Hvalid : valid_date 739797)
    by (unfold valid_date, Date.MAXORDINAL; lia).
  assert (Hvalid' : valid_date 739900)
    by (unfold valid_date, Date.MAXORDINAL; lia).
  split; [exact Hgen|]. split; [exact Hstart|]. split; [exact Hle|].
  split; [exact Hvalid|]. split.
  - destruct (current_week_of_generated uuid_sample 739783 739789 739797
                0%nat 14%nat sample_db Hgen Hstart Hle Hvalid)
      as [Hin _].
    destruct Hin as (s & Hs & _ & Hws).
    + rewrite end_date_ordinal. vm_compute. split; discriminate.
    + exists s. split; [exact Hs | exact Hws].
  - destruct (current_week_of_generated uuid_sample 739783 739789 739900
                0%nat 14%nat sample_db Hgen Hstart Hle Hvalid')
      as [_ Hout].
    destruct Hout as (s & Hs & _ & Hws).
    + right. rewrite end_date_ordinal. vm_compute. reflexivity.
    + exists s. split; [exact Hs | exact Hws].
Defined.

Lemma current_week_shows_completion_witness :
  exists d,
    get_current_week 739797 sample_db = Ok d
    /\ schedule_matches sample_update d
    /\ exists d' j t',
         get_current_week 739797
           (snd (complete_task sample_update sample_now sample_db)) = Ok d'
         /\ WeekSchedule.week_start d' = "2026-06-29"
         /\ nth_error (WeekSchedule.tasks d') j = Some t'
         /\ PersonTask.limpieza_completada t' = true
         /\ PersonTask.completed_at t' = Some sample_now.
Proof.
  eexists. split; [vm_compute; reflexivity|].
  match goal with
  | |- schedule_matches ?u ?d /\ _ =>
      assert (Hmatch : schedule_matches u d)
        by (apply filter_query_spec; vm_compute; reflexivity)
  end.
  split; [exact Hmatch|].
  match type of Hmatch with
  | schedule_matches _ ?d =>
      destruct (current_week_shows_completion 739797 sample_update
                  sample_now sample_db d)
        as (d' & j & t & t' & _ & Hcur & Hws & _ & _ & _ & _ & Ht' & _ & _
            & Hflag & Hat);
        [vm_compute; reflexivity | exact Hmatch |]
  end.
  exists d', j, t'. split; [exact Hcur|]. split; [exact Hws|].
  split; [exact Ht'|]. split; [exact Hflag | exact Hat].
Defined.
